(** * The MCP stdio bridge of the Rust weather API

    A shallow embedding of [mcp_stdio_bridge.py]: the line loop of [main],
    the handlers of the five methods, and the tool adapter
    [handle_call_tool] with its HTTP call and its two exception handlers.

    What the script takes from Python and from [requests] is kept apart
    in the class [Runtime]: the JSON decoder, [str.strip], [repr] on
    strings, and the HTTP backend.  The script itself is written in a
    small monad [IO] that collects what the process writes and the HTTP
    requests it makes, propagates exceptions and threads the state of
    the backend.

    Standard input is the list of the outcomes of the reads of
    [for line in sys.stdin]: a line of text, or the exception the read
    raises.  Standing assumptions: writing to standard output and
    standard error succeeds; only subclasses of [Exception] are raised;
    the traceback the interpreter prints when [main] raises is not part
    of the trace. *)

From Stdlib Require Import String Ascii List ZArith Bool Lia DecimalString.
Import ListNotations.
Open Scope string_scope.
Open Scope Z_scope.
Set Warnings "-register-all".

(** ** JSON values, as [json.loads] builds them

    Python's [None] is JSON [null]; a dict keeps its keys in insertion
    order, so it is a list of pairs here.  A float is carried by its
    [repr], which is all the script ever does with one. *)

Inductive json : Type :=
| JNull
| JBool (b : bool)
| JInt (z : Z)
| JFloat (repr : string)
| JStr (s : string)
| JList (l : list json)
| JDict (d : list (string * json)).

(** ** Exceptions

    Only subclasses of [Exception] are modelled; an exception is its
    class, as far as the [except] clauses of the script tell classes
    apart, and its [str(e)]. *)

Inductive exn_class : Type :=
| KeyError
| TypeError
| AttributeError
| JSONDecodeError      (* json.JSONDecodeError and its subclasses *)
| ConnectionError      (* requests.exceptions.ConnectionError and its subclasses *)
| OtherException.

Record exn : Type := Exn { exn_cls : exn_class; exn_str : string }.

Definition result (A : Type) : Type := (exn + A)%type.

(** Sequencing of operations that may raise. *)
Definition and_then {A B} (r : result A) (k : A -> result B) : result B :=
  match r with
  | inl e => inl e
  | inr a => k a
  end.

Declare Scope result_scope.
Delimit Scope result_scope with res.
Notation "x <- r ;; k" := (and_then r (fun x => k))
  (at level 61, r at next level, right associativity) : result_scope.

(** ** What the process does, in the order it does it *)

Inductive event : Type :=
| Stdout (response : json)              (* one line written by [send_response] *)
| Stderr (message : string)             (* one line written by [log_error] *)
| HttpGet (url : string)                (* [requests.get(url, ...)] *)
| HttpPost (url : string) (body : json). (* [requests.post(url, json=body, ...)] *)

(** A [requests.Response]: the status code and what [.json()] gives. *)
Record response : Type := Response {
  status_code : Z;
  response_json : result json
}.

(** ** The runtime the script runs on *)

Class Runtime : Type := {
  (** [repr(s)] for a [str] *)
  repr_str : string -> string;
  (** [s.strip()] *)
  strip : string -> string;
  (** [json.loads(s)] *)
  json_loads : string -> result json;
  (** the HTTP server behind [requests], with its state *)
  backend : Type;
  requests_get : string -> backend -> result response * backend;
  requests_post : string -> json -> backend -> result response * backend
}.

(** ** Python's operations on JSON values *)

Fixpoint lookup (k : string) (d : list (string * json)) : option json :=
  match d with
  | [] => None
  | (k', v) :: d' => if String.eqb k k' then Some v else lookup k d'
  end.

Definition type_name (v : json) : string :=
  match v with
  | JNull => "NoneType"
  | JBool _ => "bool"
  | JInt _ => "int"
  | JFloat _ => "float"
  | JStr _ => "str"
  | JList _ => "list"
  | JDict _ => "dict"
  end.

(** [v == s] for a string literal [s] *)
Definition eq_str (v : json) (s : string) : bool :=
  match v with
  | JStr s' => String.eqb s' s
  | _ => false
  end.

Fixpoint join (sep : string) (l : list string) : string :=
  match l with
  | [] => ""
  | [s] => s
  | s :: l' => s ++ sep ++ join sep l'
  end.

(** [l.append(x)] *)
Definition list_append {A} (l : list A) (x : A) : list A := (l ++ [x])%list.

(** [s * n] *)
Fixpoint repeat_str (s : string) (n : nat) : string :=
  match n with
  | O => ""
  | S n' => s ++ repeat_str s n'
  end.

Definition str_of_Z (z : Z) : string := NilZero.string_of_int (Z.to_int z).

Section Python.
Context `{RT : Runtime}.

Fixpoint py_repr (v : json) : string :=
  match v with
  | JNull => "None"
  | JBool true => "True"
  | JBool false => "False"
  | JInt z => str_of_Z z
  | JFloat r => r
  | JStr s => repr_str s
  | JList l => "[" ++ join ", " (map py_repr l) ++ "]"
  | JDict d =>
      "{" ++ join ", "
               (map (fun kv => match kv with
                               | (k, x) => repr_str k ++ ": " ++ py_repr x
                               end) d) ++ "}"
  end.

(** [str(v)], which is what an f-string does with [{v}] *)
Definition py_str (v : json) : string :=
  match v with
  | JStr s => s
  | _ => py_repr v
  end.

Definition no_attribute (v : json) (attr : string) : exn :=
  Exn AttributeError
      ("'" ++ type_name v ++ "' object has no attribute '" ++ attr ++ "'").

(** [v.get(k, default)] *)
Definition get (v : json) (k : string) (default : json) : result json :=
  match v with
  | JDict d => match lookup k d with
               | Some x => inr x
               | None => inr default
               end
  | _ => inl (no_attribute v "get")
  end.

(** [v[k]] for a string [k]; the messages are those of CPython 3.11
    and later. *)
Definition subscript (v : json) (k : string) : result json :=
  match v with
  | JDict d => match lookup k d with
               | Some x => inr x
               | None => inl (Exn KeyError (repr_str k))
               end
  | JList _ =>
      inl (Exn TypeError "list indices must be integers or slices, not str")
  | JStr _ =>
      inl (Exn TypeError "string indices must be integers, not 'str'")
  | _ =>
      inl (Exn TypeError ("'" ++ type_name v ++ "' object is not subscriptable"))
  end.

(** [v.items()] *)
Definition items (v : json) : result (list (string * json)) :=
  match v with
  | JDict d => inr d
  | _ => inl (no_attribute v "items")
  end.

(** ** The monad of the script: output, exceptions, backend state *)

Definition IO (A : Type) : Type :=
  backend -> result A * list event * backend.

Definition ret {A} (a : A) : IO A := fun b => (inr a, [], b).

Definition lift {A} (r : result A) : IO A := fun b => (r, [], b).

Definition bind {A B} (m : IO A) (k : A -> IO B) : IO B :=
  fun b =>
    match m b with
    | (inl e, t, b1) => (inl e, t, b1)
    | (inr a, t, b1) =>
        match k a b1 with
        | (r, t2, b2) => (r, (t ++ t2)%list, b2)
        end
    end.

(** [try: m  except Exception as e: h e] *)
Definition try_except {A} (m : IO A) (h : exn -> IO A) : IO A :=
  fun b =>
    match m b with
    | (inl e, t, b1) =>
        match h e b1 with
        | (r, t2, b2) => (r, (t ++ t2)%list, b2)
        end
    | (inr a, t, b1) => (inr a, t, b1)
    end.

Definition emit (ev : event) : IO unit := fun b => (inr tt, [ev], b).

Definition http_get (url : string) : IO response :=
  fun b => match requests_get url b with
           | (r, b1) => (r, [HttpGet url], b1)
           end.

Definition http_post (url : string) (body : json) : IO response :=
  fun b => match requests_post url body b with
           | (r, b1) => (r, [HttpPost url body], b1)
           end.
End Python.

Declare Scope io_scope.
Delimit Scope io_scope with io.
Notation "x <- m ;; k" := (bind m (fun x => k))
  (at level 61, m at next level, right associativity) : io_scope.
Notation "m ;; k" := (bind m (fun _ => k))
  (at level 61, right associativity) : io_scope.

(** ** The script *)

Definition nl : string := String "010"%char "".

(** The outcome of one read of [for line in sys.stdin]: a line of
    text, or the exception the read raises (the stream raises
    [UnicodeDecodeError] on bytes that are not valid UTF-8; it decodes
    by blocks, so which read raises is the stream's affair).  A [Line]
    holds a Python [str], as its UTF-8 bytes: input bytes that do not
    decode are a [ReadError], never a [Line]. *)
Inductive read : Type :=
| Line (line : string)
| ReadError (e : exn).

(** An input whose reads all give a line. *)
Definition decoded (lines : list string) : list read := map Line lines.

(** The lines an input gives before its first read that raises. *)
Fixpoint read_lines (stdin : list read) : list string :=
  match stdin with
  | Line line :: rest => line :: read_lines rest
  | _ => []
  end.

Definition HTTP_SERVER : string := "http://localhost:3000".

Section Bridge.
Context `{RT : Runtime}.
Open Scope io_scope.

Definition log_error (message : string) : IO unit :=
  emit (Stderr ("ERROR: " ++ message)).

Definition send_response (response : json) : IO unit :=
  emit (Stdout response).

Definition handle_initialize (request_id : json) : IO unit :=
  send_response (JDict [
    ("jsonrpc", JStr "2.0");
    ("id", request_id);
    ("result", JDict [
      ("protocolVersion", JStr "2024-11-05");
      ("capabilities", JDict [("tools", JDict [])]);
      ("serverInfo", JDict [
        ("name", JStr "rust-weather-api");
        ("version", JStr "0.3.0")])])]).

Definition handle_list_tools (request_id : json) : IO unit :=
  send_response (JDict [
    ("jsonrpc", JStr "2.0");
    ("id", request_id);
    ("result", JDict [
      ("tools", JList [
        JDict [
          ("name", JStr "weather_info");
          ("description",
           JStr "Get weather information for specified cities from Rust Weather API");
          ("inputSchema", JDict [
            ("type", JStr "object");
            ("properties", JDict [
              ("cities", JDict [
                ("type", JStr "array");
                ("items", JDict [("type", JStr "string")]);
                ("description", JStr "List of city names (max 20)")])]);
            ("required", JList [JStr "cities"])])]])])]).

(** The body of [for city, info in data['results'].items()], which
    appends five lines to [results_text]. *)
Definition city_lines (results_text : list string) (city : string) (info : json)
  : result (list string) :=
  (let results_text := list_append results_text (nl ++ "🌍 " ++ city) in
   temperature <- subscript info "temperature" ;;
   let results_text :=
     list_append results_text
       ("   Temperature: " ++ py_str temperature ++ "°C")%string in
   condition <- subscript info "condition" ;;
   let results_text :=
     list_append results_text ("   Condition: " ++ py_str condition)%string in
   humidity <- subscript info "humidity" ;;
   let results_text :=
     list_append results_text
       ("   Humidity: " ++ py_str humidity ++ "%")%string in
   wind_speed <- subscript info "wind_speed" ;;
   inr (list_append results_text
          ("   Wind Speed: " ++ py_str wind_speed ++ " km/h")%string))%res.

Fixpoint for_cities (its : list (string * json)) (results_text : list string)
  : result (list string) :=
  match its with
  | [] => inr results_text
  | (city, info) :: its' =>
      (results_text <- city_lines results_text city info ;;
       for_cities its' results_text)%res
  end.

(** Lines 98 to 107 of the script: [results_text], from the decoded
    body. *)
Definition format_results (data : json) : result (list string) :=
  (let results_text := [] in
   timestamp <- subscript data "timestamp" ;;
   let results_text :=
     list_append results_text
       ("Weather Information (Retrieved: " ++ py_str timestamp ++ ")")%string in
   let results_text := list_append results_text (repeat_str "=" 60) in
   results <- subscript data "results" ;;
   its <- items results ;;
   for_cities its results_text)%res.

Definition handle_call_tool (request_id : json) (params : json) : IO unit :=
  tool_name <- lift (get params "name" JNull) ;;
  arguments <- lift (get params "arguments" (JDict [])) ;;
  if negb (eq_str tool_name "weather_info") then
    send_response (JDict [
      ("jsonrpc", JStr "2.0");
      ("id", request_id);
      ("error", JDict [
        ("code", JInt (-32601));
        ("message", JStr ("Unknown tool: " ++ py_str tool_name))])])
  else
    try_except
      (response <- http_post (HTTP_SERVER ++ "/mcp/tool/weather_info") arguments ;;
       if status_code response =? 200 then
         data <- lift (response_json response) ;;
         results_text <- lift (format_results data) ;;
         send_response (JDict [
           ("jsonrpc", JStr "2.0");
           ("id", request_id);
           ("result", JDict [
             ("content", JList [
               JDict [
                 ("type", JStr "text");
                 ("text", JStr (join nl results_text))]])])])
       else
         error_data <- lift (response_json response) ;;
         message <- lift (get error_data "error" (JStr "HTTP request failed")) ;;
         send_response (JDict [
           ("jsonrpc", JStr "2.0");
           ("id", request_id);
           ("error", JDict [
             ("code", JInt (status_code response));
             ("message", message)])]))
      (fun e =>
         match exn_cls e with
         | ConnectionError =>
             send_response (JDict [
               ("jsonrpc", JStr "2.0");
               ("id", request_id);
               ("error", JDict [
                 ("code", JInt (-32603));
                 ("message", JStr "Cannot connect to Rust Weather API server. Please ensure 'cargo run --bin server' is running on port 3000.")])])
         | _ =>
             log_error ("Error calling HTTP endpoint: " ++ exn_str e) ;;
             send_response (JDict [
               ("jsonrpc", JStr "2.0");
               ("id", request_id);
               ("error", JDict [
                 ("code", JInt (-32603));
                 ("message", JStr ("Internal error: " ++ exn_str e))])])
         end).

Definition handle_ping (request_id : json) : IO unit :=
  send_response (JDict [
    ("jsonrpc", JStr "2.0");
    ("id", request_id);
    ("result", JDict [])]).

(** The startup probe of [main]; the bare [except:] takes every
    exception. *)
Definition probe : IO unit :=
  try_except
    (response <- http_get (HTTP_SERVER ++ "/mcp") ;;
     if status_code response =? 200 then
       log_error "Successfully connected to Rust Weather API HTTP server"
     else
       log_error "WARNING: Rust Weather API HTTP server returned unexpected status")
    (fun _ =>
       log_error "WARNING: Cannot connect to Rust Weather API HTTP server on port 3000" ;;
       log_error "Please start the server with: cargo run --bin server").

(** The dispatch on [method], lines 189 to 208. *)
Definition dispatch (request_id method params : json) : IO unit :=
  if eq_str method "initialize" then
    handle_initialize request_id
  else if eq_str method "tools/list" then
    handle_list_tools request_id
  else if eq_str method "tools/call" then
    handle_call_tool request_id params
  else if eq_str method "ping" then
    handle_ping request_id
  else if eq_str method "notifications/initialized" then
    ret tt
  else
    send_response (JDict [
      ("jsonrpc", JStr "2.0");
      ("id", request_id);
      ("error", JDict [
        ("code", JInt (-32601));
        ("message", JStr ("Method not found: " ++ py_str method))])]).

(** One turn of [for line in sys.stdin], with its [try] and its two
    [except] clauses; [continue] on a blank line is the early [ret]. *)
Definition loop_body (line : string) : IO unit :=
  try_except
    (let line := strip line in
     if String.eqb line "" then
       ret tt
     else
       request <- lift (json_loads line) ;;
       request_id <- lift (get request "id" JNull) ;;
       method <- lift (get request "method" JNull) ;;
       params <- lift (get request "params" (JDict [])) ;;
       log_error ("Received request: " ++ py_str method) ;;
       dispatch request_id method params)
    (fun e =>
       match exn_cls e with
       | JSONDecodeError => log_error ("Invalid JSON: " ++ exn_str e)
       | _ => log_error ("Error processing request: " ++ exn_str e)
       end).

(** [for line in sys.stdin]: the read is outside the [try], so the
    exception of a read leaves the loop, and [main]. *)
Fixpoint for_lines (stdin : list read) : IO unit :=
  match stdin with
  | [] => ret tt
  | Line line :: rest => loop_body line ;; for_lines rest
  | ReadError e :: _ => lift (inl e)
  end.

Definition main (stdin : list read) : IO unit :=
  log_error "MCP stdio bridge started" ;;
  probe ;;
  for_lines stdin.

(** The three parts of a run *)
Definition trace_of {A} (m : IO A) (b : backend) : list event := snd (fst (m b)).
Definition backend_after {A} (m : IO A) (b : backend) : backend := snd (m b).
Definition result_of {A} (m : IO A) (b : backend) : result A := fst (fst (m b)).
End Bridge.

Fixpoint stdout (t : list event) : list json :=
  match t with
  | [] => []
  | Stdout r :: t' => r :: stdout t'
  | _ :: t' => stdout t'
  end.

(** A trace without the diagnostics of [log_error]. *)
Fixpoint protocol (t : list event) : list event :=
  match t with
  | [] => []
  | Stderr _ :: t' => protocol t'
  | ev :: t' => ev :: protocol t'
  end.

(** ** Reading a response *)

(** The [id] a response line carries, if it is an object with one. *)
Definition response_id (r : json) : option json :=
  match r with
  | JDict d => lookup "id" d
  | _ => None
  end.

Definition or_null (o : option json) : json :=
  match o with
  | Some v => v
  | None => JNull
  end.

Definition tool_url : string := HTTP_SERVER ++ "/mcp/tool/weather_info".

(** ** The vocabulary of the specification *)

Definition is_dict (v : json) : bool :=
  match v with
  | JDict _ => true
  | _ => false
  end.

(** A field of a request object, [None] when it is absent. *)
Definition field (request : json) (k : string) : json :=
  match request with
  | JDict d => or_null (lookup k d)
  | _ => JNull
  end.

Definition params_of (request : json) : json :=
  match request with
  | JDict d => match lookup "params" d with
               | Some p => p
               | None => JDict []
               end
  | _ => JDict []
  end.

(** The tool name and the arguments of the parameters of a call. *)
Definition tool_name_of (params : list (string * json)) : json :=
  or_null (lookup "name" params).

Definition arguments_of (params : list (string * json)) : json :=
  match lookup "arguments" params with
  | Some a => a
  | None => JDict []
  end.

(** The five method names of the dispatch table. *)
Definition recognized (method : json) : bool :=
  eq_str method "initialize" || eq_str method "tools/list" ||
  eq_str method "tools/call" || eq_str method "ping" ||
  eq_str method "notifications/initialized".

(** The per-city record of the backend contract. *)
Record WeatherResult : Type := {
  temperature : json;
  condition : json;
  humidity : json;
  wind_speed : json
}.

Definition decode_record (info : json) : option WeatherResult :=
  match info with
  | JDict f =>
      match lookup "temperature" f, lookup "condition" f,
            lookup "humidity" f, lookup "wind_speed" f with
      | Some t, Some c, Some h, Some w =>
          Some {| temperature := t; condition := c;
                  humidity := h; wind_speed := w |}
      | _, _, _, _ => None
      end
  | _ => None
  end.

Fixpoint decode_results (its : list (string * json))
  : option (list (string * WeatherResult)) :=
  match its with
  | [] => Some []
  | (city, info) :: its' =>
      match decode_record info, decode_results its' with
      | Some w, Some ws => Some ((city, w) :: ws)
      | _, _ => None
      end
  end.

(** A success body [{timestamp, results: city -> record}], read as the
    backend contract gives it. *)
Definition decode_body (data : json)
  : option (json * list (string * WeatherResult)) :=
  match data with
  | JDict d =>
      match lookup "timestamp" d, lookup "results" d with
      | Some timestamp, Some (JDict its) =>
          match decode_results its with
          | Some ws => Some (timestamp, ws)
          | None => None
          end
      | _, _ => None
      end
  | _ => None
  end.

(** A record that lacks one of its four fields. *)
Definition lacks_field (info : json) : bool :=
  match info with
  | JDict f =>
      match lookup "temperature" f, lookup "condition" f,
            lookup "humidity" f, lookup "wind_speed" f with
      | Some _, Some _, Some _, Some _ => false
      | _, _, _, _ => true
      end
  | _ => false
  end.

(** A body that lacks [timestamp] or [results], or has a city whose
    record lacks a field. *)
Definition missing_field (data : json) : bool :=
  match data with
  | JDict d =>
      match lookup "timestamp" d, lookup "results" d with
      | None, _ => true
      | _, None => true
      | Some _, Some (JDict its) =>
          existsb (fun ci => lacks_field (snd ci)) its
      | Some _, Some _ => false
      end
  | _ => false
  end.

Fixpoint concat_str (l : list string) : string :=
  match l with
  | [] => ""
  | s :: l' => s ++ concat_str l'
  end.

Definition error_response (request_id : json) (code : Z) (message : json) : json :=
  JDict [
    ("jsonrpc", JStr "2.0");
    ("id", request_id);
    ("error", JDict [("code", JInt code); ("message", message)])].

Definition text_result (request_id : json) (text : string) : json :=
  JDict [
    ("jsonrpc", JStr "2.0");
    ("id", request_id);
    ("result", JDict [
      ("content", JList [
        JDict [("type", JStr "text"); ("text", JStr text)]])])].

Definition connect_message : string :=
  "Cannot connect to Rust Weather API server. Please ensure 'cargo run --bin server' is running on port 3000.".

Section Vocabulary.
Context `{RT : Runtime}.

(** The request a line holds, and its [id]. *)
Definition request_of (line : string) : result json :=
  json_loads (strip line).

Definition id_of (line : string) : json :=
  match request_of line with
  | inr request => field request "id"
  | inl _ => JNull
  end.

(** A line that is not blank and holds a request object, other than
    the notification [notifications/initialized] and other than a
    [tools/call] whose [params] is not an object. *)
Definition answered (line : string) : bool :=
  negb (String.eqb (strip line) "") &&
  match request_of line with
  | inr (JDict d) =>
      negb (eq_str (field (JDict d) "method") "notifications/initialized") &&
      (if eq_str (field (JDict d) "method") "tools/call"
       then is_dict (params_of (JDict d))
       else true)
  | _ => false
  end.

(** The block of one city: its name, then its four values. *)
Definition city_block (city : string) (w : WeatherResult) : string :=
  nl ++ "🌍 " ++ city ++ nl ++
  "   Temperature: " ++ py_str (temperature w) ++ "°C" ++ nl ++
  "   Condition: " ++ py_str (condition w) ++ nl ++
  "   Humidity: " ++ py_str (humidity w) ++ "%" ++ nl ++
  "   Wind Speed: " ++ py_str (wind_speed w) ++ " km/h".

(** The text of a success: the header with the timestamp, the rule,
    then the cities in the order they came, each on new lines. *)
Definition weather_text (timestamp : json)
    (cities : list (string * WeatherResult)) : string :=
  "Weather Information (Retrieved: " ++ py_str timestamp ++ ")" ++ nl ++
  repeat_str "=" 60 ++
  concat_str (map (fun cw => nl ++ city_block (fst cw) (snd cw)) cities).
End Vocabulary.

(** ** A runtime to run the script on

    JSON text is written with ['] where JSON has the double quote;
    [jq] puts the double quote back. *)

Module Sample.

Definition jq_char (c : ascii) : ascii :=
  if Ascii.eqb c "'"%char then "034"%char else c.

Fixpoint jq (s : string) : string :=
  match s with
  | EmptyString => EmptyString
  | String c s' => String (jq_char c) (jq s')
  end.

(** The ASCII characters [str.isspace] accepts. *)
Definition is_space (c : ascii) : bool :=
  let n := nat_of_ascii c in
  ((9 <=? n) && (n <=? 13) || (28 <=? n) && (n <=? 32))%nat.

Fixpoint lstrip (s : list ascii) : list ascii :=
  match s with
  | c :: s' => if is_space c then lstrip s' else s
  | [] => []
  end.

Definition ascii_strip (s : string) : string :=
  string_of_list_ascii
    (rev (lstrip (rev (lstrip (list_ascii_of_string s))))).

(** [repr] of a string of printable ASCII characters without quote or
    backslash. *)
Definition plain_repr (s : string) : string := "'" ++ s ++ "'".

Definition req_initialized : string :=
  jq "{'jsonrpc': '2.0', 'id': 1, 'method': 'notifications/initialized'}".
Definition req_ping_no_id : string :=
  jq "{'jsonrpc': '2.0', 'method': 'ping'}".
Definition req_ping : string :=
  jq "{'jsonrpc': '2.0', 'id': 2, 'method': 'ping'}".
Definition req_unknown_method : string :=
  jq "{'jsonrpc': '2.0', 'id': 3, 'method': 'resources/list'}".
Definition req_no_method : string :=
  jq "{'jsonrpc': '2.0', 'id': 4}".
Definition req_unknown_tool : string :=
  jq "{'jsonrpc': '2.0', 'id': 5, 'method': 'tools/call', 'params': {'name': 'forecast', 'arguments': {'cities': ['Paris']}}}".
Definition req_weather : string :=
  jq "{'jsonrpc': '2.0', 'id': 6, 'method': 'tools/call', 'params': {'name': 'weather_info', 'arguments': {'cities': ['Paris']}}}".
Definition req_params_list : string :=
  jq "{'jsonrpc': '2.0', 'id': 7, 'method': 'tools/call', 'params': []}".

Definition paris_args : json := JDict [("cities", JList [JStr "Paris"])].

(** A decoder for the lines above; it knows no other text. *)
Definition loads (s : string) : result json :=
  if String.eqb s req_initialized then
    inr (JDict [("jsonrpc", JStr "2.0"); ("id", JInt 1);
                ("method", JStr "notifications/initialized")])
  else if String.eqb s req_ping_no_id then
    inr (JDict [("jsonrpc", JStr "2.0"); ("method", JStr "ping")])
  else if String.eqb s req_ping then
    inr (JDict [("jsonrpc", JStr "2.0"); ("id", JInt 2); ("method", JStr "ping")])
  else if String.eqb s req_unknown_method then
    inr (JDict [("jsonrpc", JStr "2.0"); ("id", JInt 3);
                ("method", JStr "resources/list")])
  else if String.eqb s req_no_method then
    inr (JDict [("jsonrpc", JStr "2.0"); ("id", JInt 4)])
  else if String.eqb s req_unknown_tool then
    inr (JDict [("jsonrpc", JStr "2.0"); ("id", JInt 5);
                ("method", JStr "tools/call");
                ("params", JDict [("name", JStr "forecast");
                                  ("arguments", paris_args)])])
  else if String.eqb s req_weather then
    inr (JDict [("jsonrpc", JStr "2.0"); ("id", JInt 6);
                ("method", JStr "tools/call");
                ("params", JDict [("name", JStr "weather_info");
                                  ("arguments", paris_args)])])
  else if String.eqb s req_params_list then
    inr (JDict [("jsonrpc", JStr "2.0"); ("id", JInt 7);
                ("method", JStr "tools/call"); ("params", JList [])])
  else
    inl (Exn JSONDecodeError "Expecting value: line 1 column 1 (char 0)").

(** A backend that is the list of its answers to come, one for each
    request; with none left, nothing listens on the port. *)
Definition refused : exn :=
  Exn ConnectionError "Connection refused".

Definition answer (b : list (result response))
  : result response * list (result response) :=
  match b with
  | [] => (inl refused, [])
  | r :: b' => (r, b')
  end.

#[global] Instance runtime : Runtime := {|
  repr_str := plain_repr;
  strip := ascii_strip;
  json_loads := loads;
  backend := list (result response);
  requests_get := fun _ b => answer b;
  requests_post := fun _ _ b => answer b
|}.

Definition alive : result response := inr (Response 200 (inr (JDict []))).

Definition paris_body : json :=
  JDict [
    ("timestamp", JStr "2024-01-01T00:00:00Z");
    ("results", JDict [
      ("Paris", JDict [
        ("temperature", JInt 18);
        ("condition", JStr "Cloudy");
        ("humidity", JInt 60);
        ("wind_speed", JInt 12)])])].

Definition not_found_body : json := JDict [("error", JStr "city not found")].

Definition bad_body : result json :=
  inl (Exn JSONDecodeError "Expecting value: line 1 column 1 (char 0)").


Definition paris_ok : result response :=
  inr (Response 200 (inr paris_body)).

Definition weather_params : list (string * json) :=
  [("name", JStr "weather_info"); ("arguments", paris_args)].

Definition paris_record : WeatherResult :=
  {| temperature := JInt 18; condition := JStr "Cloudy";
     humidity := JInt 60; wind_speed := JInt 12 |}.

Definition no_humidity_body : json :=
  JDict [
    ("timestamp", JStr "2024-01-01T00:00:00Z");
    ("results", JDict [
      ("Paris", JDict [
        ("temperature", JInt 18);
        ("condition", JStr "Cloudy");
        ("wind_speed", JInt 12)])])].

End Sample.

(** ** More vocabulary, for the run as a whole *)

(** The HTTP requests of a trace. *)
Fixpoint http_requests (t : list event) : list event :=
  match t with
  | [] => []
  | HttpGet u :: t' => HttpGet u :: http_requests t'
  | HttpPost u a :: t' => HttpPost u a :: http_requests t'
  | _ :: t' => http_requests t'
  end.

(** The lines written to standard error. *)
Fixpoint stderr (t : list event) : list string :=
  match t with
  | [] => []
  | Stderr m :: t' => m :: stderr t'
  | _ :: t' => stderr t'
  end.

Definition probe_url : string := HTTP_SERVER ++ "/mcp".

(** An [error] member: a code and a message, in this order. *)
Definition is_error_object (v : json) : bool :=
  match v with
  | JDict [(c, JInt _); (m, _)] => String.eqb c "code" && String.eqb m "message"
  | _ => false
  end.

(** A JSON-RPC 2.0 response: [jsonrpc], [id], then either a [result]
    object or an [error] object. *)
Definition is_envelope (r : json) : bool :=
  match r with
  | JDict [(j, JStr v); (i, _); (k, body)] =>
      String.eqb j "jsonrpc" && String.eqb v "2.0" && String.eqb i "id" &&
      (String.eqb k "result" && is_dict body ||
       String.eqb k "error" && is_error_object body)
  | _ => false
  end.

(** The code of an error response, and the result of a success. *)
Definition error_code (r : json) : option Z :=
  match r with
  | JDict d =>
      match lookup "error" d with
      | Some (JDict e) =>
          match lookup "code" e with
          | Some (JInt c) => Some c
          | _ => None
          end
      | _ => None
      end
  | _ => None
  end.

Definition result_member (r : json) : option json :=
  match r with
  | JDict d => lookup "result" d
  | _ => None
  end.

(** The names of the tools a [tools/list] response describes. *)
Definition listed_tool_names (r : json) : list json :=
  match result_member r with
  | Some (JDict res) =>
      match lookup "tools" res with
      | Some (JList tools) => map (fun tool => field tool "name") tools
      | _ => []
      end
  | _ => []
  end.

(** The first of the four fields, in the order the script reads them,
    that a record lacks. *)
Definition first_missing (f : list (string * json)) : option string :=
  match lookup "temperature" f with
  | None => Some "temperature"
  | Some _ =>
  match lookup "condition" f with
  | None => Some "condition"
  | Some _ =>
  match lookup "humidity" f with
  | None => Some "humidity"
  | Some _ =>
  match lookup "wind_speed" f with
  | None => Some "wind_speed"
  | Some _ => None
  end end end end.

(** The first key the script finds missing in a list of records that
    are all objects. *)
Fixpoint missing_in_results (its : list (string * json)) : option string :=
  match its with
  | (_, JDict f) :: its' =>
      match first_missing f with
      | Some k => Some k
      | None => missing_in_results its'
      end
  | _ => None
  end.

(** The first key the script finds missing in a body, if that is how
    the body fails. *)
Definition missing_key (data : json) : option string :=
  match data with
  | JDict d =>
      match lookup "timestamp" d with
      | None => Some "timestamp"
      | Some _ =>
          match lookup "results" d with
          | None => Some "results"
          | Some (JDict its) => missing_in_results its
          | Some _ => None
          end
      end
  | _ => None
  end.

Section RunVocabulary.
Context `{RT : Runtime}.

(** A line whose turn reaches the backend: a [tools/call] request
    object whose [params] is an object that names [weather_info]. *)
Definition calls_backend (line : string) : bool :=
  negb (String.eqb (strip line) "") &&
  match request_of line with
  | inr (JDict d) =>
      eq_str (field (JDict d) "method") "tools/call" &&
      match params_of (JDict d) with
      | JDict p => eq_str (tool_name_of p) "weather_info"
      | _ => false
      end
  | _ => false
  end.

(** The [arguments] of the call a line holds. *)
Definition call_arguments (line : string) : json :=
  match request_of line with
  | inr (JDict d) =>
      match params_of (JDict d) with
      | JDict p => arguments_of p
      | _ => JDict []
      end
  | _ => JDict []
  end.
End RunVocabulary.

(** A second runtime: the sample one, with a decoder that also knows
    two lines of JSON that are not objects. *)
Module Sample2.

Definition req_list : string := "[1, 2]".
Definition req_null : string := "null".

Definition loads (s : string) : result json :=
  if String.eqb s req_list then inr (JList [JInt 1; JInt 2])
  else if String.eqb s req_null then inr JNull
  else Sample.loads s.

Definition runtime : Runtime := {|
  repr_str := Sample.plain_repr;
  strip := Sample.ascii_strip;
  json_loads := loads;
  backend := list (result response);
  requests_get := fun _ b => Sample.answer b;
  requests_post := fun _ _ b => Sample.answer b
|}.

Definition timed_out : exn :=
  Exn OtherException "HTTPConnectionPool(host='localhost', port=3000): Read timed out. (read timeout=10)".

Definition results_list_body : json :=
  JDict [("timestamp", JStr "2024-01-01T00:00:00Z"); ("results", JList [])].

End Sample2.

(** * Properties *)

(** Runs the monad by unfolding its operations. *)
Ltac run :=
  unfold trace_of, result_of, backend_after,
    try_except, bind, lift, ret, send_response, log_error, emit,
    http_post, http_get.

(** ** Traces *)

Lemma stdout_app (t1 t2 : list event) :
  stdout (t1 ++ t2) = (stdout t1 ++ stdout t2)%list.
Proof.
  induction t1 as [|ev t1 IH]; simpl; [reflexivity|].
  destruct ev; simpl; rewrite IH; reflexivity.
Qed.

Lemma protocol_app (t1 t2 : list event) :
  protocol (t1 ++ t2) = (protocol t1 ++ protocol t2)%list.
Proof.
  induction t1 as [|ev t1 IH]; simpl; [reflexivity|].
  destruct ev; simpl; rewrite IH; reflexivity.
Qed.

Lemma stdout_protocol (t : list event) : stdout (protocol t) = stdout t.
Proof.
  induction t as [|ev t IH]; simpl; [reflexivity|].
  destruct ev; simpl; rewrite IH; reflexivity.
Qed.

Lemma eq_str_true (v : json) (s : string) :
  eq_str v s = true -> v = JStr s.
Proof.
  destruct v; simpl; try discriminate.
  intros H. apply String.eqb_eq in H. now subst.
Qed.

Lemma str_app_assoc (a b c : string) : (a ++ b) ++ c = a ++ b ++ c.
Proof. induction a as [|x a IH]; simpl; [reflexivity|now rewrite IH]. Qed.

Lemma str_app_nil_r (a : string) : a ++ "" = a.
Proof. induction a as [|x a IH]; simpl; [reflexivity|now rewrite IH]. Qed.

Lemma join_append (sep : string) (l : list string) (s : string) :
  l <> [] -> join sep (list_append l s) = join sep l ++ sep ++ s.
Proof.
  unfold list_append. induction l as [|x l IH]; intros Hl; [congruence|].
  destruct l as [|y l]; [reflexivity|].
  change (x ++ sep ++ join sep ((y :: l) ++ [s])%list =
          (x ++ sep ++ join sep (y :: l)) ++ sep ++ s).
  rewrite IH by discriminate. now rewrite !str_app_assoc.
Qed.

Lemma list_append_not_nil {A} (l : list A) (x : A) : list_append l x <> [].
Proof. unfold list_append. destruct l; discriminate. Qed.

Lemma decoded_cons (line : string) (lines : list string) :
  decoded (line :: lines) = Line line :: decoded lines.
Proof. reflexivity. Qed.


Lemma read_lines_decoded (lines : list string) :
  read_lines (decoded lines) = lines.
Proof.
  induction lines as [|line lines IH]; [reflexivity|].
  rewrite decoded_cons. simpl. now rewrite IH.
Qed.

Section Facts.
Context `{RT : Runtime}.

(** *** The loop never stops on a line *)

Lemma loop_body_returns (line : string) (b : backend) :
  result_of (loop_body line) b = inr tt.
Proof.
  unfold loop_body, result_of, try_except.
  match goal with |- context [match ?m b with _ => _ end] =>
    destruct (m b) as [[[e|[]] t] b1] end; simpl; [|reflexivity].
  destruct (exn_cls e); reflexivity.
Qed.

(** A read that raises ends the loop. *)
Lemma for_lines_raise (e : exn) (rest : list read) (b : backend) :
  for_lines (ReadError e :: rest) b = (inl e, [], b).
Proof. reflexivity. Qed.

Lemma for_lines_step (line : string) (rest : list read) (b : backend) :
  for_lines (Line line :: rest) b =
    (result_of (for_lines rest) (backend_after (loop_body line) b),
     (trace_of (loop_body line) b ++
      trace_of (for_lines rest) (backend_after (loop_body line) b))%list,
     backend_after (for_lines rest) (backend_after (loop_body line) b)).
Proof.
  pose proof (loop_body_returns line b) as Hl.
  unfold result_of, trace_of, backend_after in *.
  cbn [for_lines]. unfold bind, lift.
  destruct (loop_body line b) as [[r t] b1]. simpl in *. subst r.
  destruct (for_lines rest b1) as [[r2 t2] b2]. reflexivity.
Qed.

Lemma for_lines_cons (line : string) (rest : list read) (b : backend) :
  trace_of (for_lines (Line line :: rest)) b =
    (trace_of (loop_body line) b ++
     trace_of (for_lines rest) (backend_after (loop_body line) b))%list
  /\ backend_after (for_lines (Line line :: rest)) b =
       backend_after (for_lines rest) (backend_after (loop_body line) b).
Proof.
  split; [unfold trace_of at 1|unfold backend_after at 1];
    rewrite for_lines_step; reflexivity.
Qed.

Lemma for_lines_cons_result
    (line : string) (rest : list read) (b : backend) :
  result_of (for_lines (Line line :: rest)) b =
    result_of (for_lines rest) (backend_after (loop_body line) b).
Proof. unfold result_of at 1. now rewrite for_lines_step. Qed.

Lemma for_lines_returns (lines : list string) (b : backend) :
  result_of (for_lines (decoded lines)) b = inr tt.
Proof.
  revert b. induction lines as [|line rest IH]; intros b; [reflexivity|].
  rewrite decoded_cons.
  rewrite for_lines_cons_result. apply IH.
Qed.

Lemma for_lines_app (l1 : list string) (l2 : list read) (b : backend) :
  trace_of (for_lines (decoded l1 ++ l2)) b =
    (trace_of (for_lines (decoded l1)) b ++
     trace_of (for_lines l2) (backend_after (for_lines (decoded l1)) b))%list
  /\ backend_after (for_lines (decoded l1 ++ l2)) b =
       backend_after (for_lines l2) (backend_after (for_lines (decoded l1)) b).
Proof.
  revert b. induction l1 as [|line l1 IH]; intros b.
  - split; reflexivity.
  - rewrite decoded_cons.
    destruct (for_lines_cons line (decoded l1 ++ l2) b) as [Ht Hb].
    destruct (for_lines_cons line (decoded l1) b) as [Ht1 Hb1].
    destruct (IH (backend_after (loop_body line) b)) as [IHt IHb].
    split.
    + etransitivity; [exact Ht|]. rewrite Ht1, Hb1, IHt, app_assoc. reflexivity.
    + etransitivity; [exact Hb|]. rewrite Hb1, IHb. reflexivity.
Qed.

Lemma for_lines_app_result
    (l1 : list string) (l2 : list read) (b : backend) :
  result_of (for_lines (decoded l1 ++ l2)) b =
    result_of (for_lines l2) (backend_after (for_lines (decoded l1)) b).
Proof.
  revert b. induction l1 as [|line l1 IH]; intros b; [reflexivity|].
  rewrite decoded_cons.
  etransitivity; [exact (for_lines_cons_result line (decoded l1 ++ l2) b)|].
  destruct (for_lines_cons line (decoded l1) b) as [_ Hb]. now rewrite IH, Hb.
Qed.

(** What a run writes and does is what it does on the lines it read. *)
Lemma for_lines_read_lines (stdin : list read) (b : backend) :
  trace_of (for_lines stdin) b =
    trace_of (for_lines (decoded (read_lines stdin))) b /\
  backend_after (for_lines stdin) b =
    backend_after (for_lines (decoded (read_lines stdin))) b.
Proof.
  revert b. induction stdin as [|[line|e] rest IH]; intros b;
    try (split; reflexivity).
  cbn [read_lines]. rewrite decoded_cons.
  destruct (for_lines_cons line rest b) as [Ht Hb].
  destruct (for_lines_cons line (decoded (read_lines rest)) b) as [Ht' Hb'].
  destruct (IH (backend_after (loop_body line) b)) as [IHt IHb].
  rewrite Ht, Hb, Ht', Hb', IHt, IHb. split; reflexivity.
Qed.

(** *** The startup probe *)

Lemma probe_quiet (b : backend) :
  result_of probe b = inr tt /\ stdout (trace_of probe b) = [].
Proof.
  unfold probe. run. simpl.
  destruct (requests_get _ b) as [[e|r] b1]; simpl.
  - split; reflexivity.
  - destruct (status_code r =? 200); simpl; split; reflexivity.
Qed.

Lemma main_trace (stdin : list read) (b : backend) :
  trace_of (main stdin) b =
    (Stderr "ERROR: MCP stdio bridge started" :: trace_of probe b ++
     trace_of (for_lines stdin) (backend_after probe b))%list
  /\ backend_after (main stdin) b =
       backend_after (for_lines stdin) (backend_after probe b)
  /\ result_of (main stdin) b =
       result_of (for_lines stdin) (backend_after probe b).
Proof.
  destruct (probe_quiet b) as [Hp _].
  unfold trace_of, result_of, backend_after in *.
  destruct (probe b) as [[r t] b1] eqn:Ep. simpl in Hp. subst r.
  destruct (for_lines stdin b1) as [[r2 t2] b2] eqn:Ef.
  unfold main, bind, log_error, emit. rewrite Ep. simpl. rewrite !Ef. simpl.
  repeat split.
Qed.

Lemma main_returns (lines : list string) (b : backend) :
  result_of (main (decoded lines)) b = inr tt.
Proof.
  destruct (main_trace (decoded lines) b) as (_ & _ & Hr). rewrite Hr.
  apply for_lines_returns.
Qed.

Lemma main_stdout (stdin : list read) (b : backend) :
  stdout (trace_of (main stdin) b) =
    stdout (trace_of (for_lines stdin) (backend_after probe b)).
Proof.
  destruct (main_trace stdin b) as [Ht _]. rewrite Ht. simpl.
  rewrite stdout_app. destruct (probe_quiet b) as [_ Hq]. now rewrite Hq.
Qed.
End Facts.

(** ** The tool adapter *)

Section Adapter.
Context `{RT : Runtime}.

Ltac call_tool d :=
  unfold handle_call_tool, get, tool_name_of, arguments_of, or_null in *;
  destruct (lookup "name" d) as [tool_name|];
  destruct (lookup "arguments" d) as [arguments|];
  run.

(** C4: a call of any tool but [weather_info], the absent name
    included, is answered with error -32601; the message is
    "Unknown tool: " followed by the name as Python prints it, the
    arguments play no part, no HTTP request is made and the backend is
    left as it was. *)
Theorem C4_unknown_tool
    (request_id : json) (params : list (string * json)) (b : backend) :
  eq_str (tool_name_of params) "weather_info" = false ->
  handle_call_tool request_id (JDict params) b =
    (inr tt,
     [Stdout (error_response request_id (-32601)
                (JStr ("Unknown tool: " ++ py_str (tool_name_of params))))],
     b).
Proof.
  intros Hname. call_tool params; simpl in *; rewrite ?Hname; reflexivity.
Qed.

(** C7: when the POST fails with a connection error, the call is
    answered with error -32603 and the fixed message that tells the
    operator to run the server on port 3000. *)
Theorem C7_backend_unreachable
    (request_id : json) (params : list (string * json))
    (b b' : backend) (e : exn) :
  eq_str (tool_name_of params) "weather_info" = true ->
  requests_post tool_url (arguments_of params) b = (inl e, b') ->
  exn_cls e = ConnectionError ->
  handle_call_tool request_id (JDict params) b =
    (inr tt,
     [HttpPost tool_url (arguments_of params);
      Stdout (error_response request_id (-32603) (JStr connect_message))],
     b').
Proof.
  intros Hname Hpost Hcls. unfold tool_url in *.
  call_tool params; simpl in *; try discriminate; rewrite Hname; simpl;
    rewrite Hpost; simpl; rewrite Hcls; reflexivity.
Qed.

(** C3, amended: on a status other than 200 whose body decodes to an
    object, the call is answered with an error whose code is the status
    and whose message is the [error] field of the body, or
    "HTTP request failed" when the body has none; a body that does not
    decode is answered with error -32603 "Internal error: ...", by the
    handler of all other exceptions. *)
Theorem C3_http_error_status
    (request_id : json) (params : list (string * json))
    (b b' : backend) (r : response) :
  eq_str (tool_name_of params) "weather_info" = true ->
  requests_post tool_url (arguments_of params) b = (inr r, b') ->
  status_code r <> 200 ->
  (forall body, response_json r = inr (JDict body) ->
     handle_call_tool request_id (JDict params) b =
       (inr tt,
        [HttpPost tool_url (arguments_of params);
         Stdout (error_response request_id (status_code r)
                   match lookup "error" body with
                   | Some message => message
                   | None => JStr "HTTP request failed"
                   end)],
        b'))
  /\
  (forall e, response_json r = inl e -> exn_cls e = JSONDecodeError ->
     handle_call_tool request_id (JDict params) b =
       (inr tt,
        [HttpPost tool_url (arguments_of params);
         Stderr ("ERROR: Error calling HTTP endpoint: " ++ exn_str e);
         Stdout (error_response request_id (-32603)
                   (JStr ("Internal error: " ++ exn_str e)))],
        b')).
Proof.
  intros Hname Hpost Hstatus. apply Z.eqb_neq in Hstatus.
  unfold tool_url in *.
  split; [intros body Hbody | intros e Hbody Hcls];
    call_tool params; simpl in *; try discriminate; rewrite Hname; simpl;
    rewrite Hpost; simpl; rewrite Hstatus; simpl; rewrite Hbody; simpl;
    try (destruct (lookup "error" body); reflexivity);
    rewrite Hcls; reflexivity.
Qed.

(** *** The text of a success *)

Lemma city_lines_decoded
    (acc : list string) (city : string) (info : json) (w : WeatherResult) :
  decode_record info = Some w ->
  acc <> [] ->
  exists acc',
    city_lines acc city info = inr acc' /\ acc' <> [] /\
    join nl acc' = join nl acc ++ nl ++ city_block city w.
Proof.
  intros Hw Hacc. destruct info as [| | | | | |f]; try discriminate.
  unfold decode_record in Hw. unfold city_lines, subscript.
  destruct (lookup "temperature" f) as [t|]; [|discriminate].
  destruct (lookup "condition" f) as [c|]; [|discriminate].
  destruct (lookup "humidity" f) as [h|]; [|discriminate].
  destruct (lookup "wind_speed" f) as [ws|]; [|discriminate].
  injection Hw as <-. eexists. split; [reflexivity|].
  split; [apply list_append_not_nil|].
  repeat (rewrite join_append;
          [|first [apply list_append_not_nil | assumption]]).
  unfold city_block. cbn [temperature condition humidity wind_speed].
  now rewrite !str_app_assoc.
Qed.

Lemma for_cities_decoded
    (its : list (string * json)) (ws : list (string * WeatherResult)) :
  decode_results its = Some ws ->
  forall acc, acc <> [] ->
  exists lines,
    for_cities its acc = inr lines /\
    join nl lines =
      join nl acc ++
      concat_str (map (fun cw => nl ++ city_block (fst cw) (snd cw)) ws).
Proof.
  revert ws. induction its as [|[city info] its IH]; intros ws Hws acc Hacc.
  - injection Hws as <-. exists acc. simpl. now rewrite str_app_nil_r.
  - simpl in Hws.
    destruct (decode_record info) as [w|] eqn:Hw; [|discriminate].
    destruct (decode_results its) as [ws'|]; [|discriminate].
    injection Hws as <-.
    destruct (city_lines_decoded acc city info w Hw Hacc)
      as (acc' & Hrun & Hne & Hjoin).
    destruct (IH ws' eq_refl acc' Hne) as (lines & Hfor & Hlines).
    exists lines. cbn [for_cities]. rewrite Hrun. split; [exact Hfor|].
    rewrite Hlines, Hjoin. cbn [map concat_str fst snd].
    now rewrite !str_app_assoc.
Qed.

Lemma format_results_decoded
    (data timestamp : json) (cities : list (string * WeatherResult)) :
  decode_body data = Some (timestamp, cities) ->
  exists lines,
    format_results data = inr lines /\
    join nl lines = weather_text timestamp cities.
Proof.
  intros Hbody. destruct data as [| | | | | |d]; try discriminate.
  unfold decode_body in Hbody. unfold format_results, subscript.
  destruct (lookup "timestamp" d) as [ts|]; [|discriminate].
  destruct (lookup "results" d) as [[| | | | | |its]|]; try discriminate.
  destruct (decode_results its) as [ws|] eqn:Hws; [|discriminate].
  injection Hbody as <- <-. simpl.
  destruct (for_cities_decoded its ws Hws
              (list_append
                 (list_append []
                    ("Weather Information (Retrieved: " ++ py_str ts ++ ")"))
                 (repeat_str "=" 60)))
    as (lines & Hfor & Hlines); [apply list_append_not_nil|].
  exists lines. split; [exact Hfor|].
  rewrite Hlines. unfold weather_text, list_append.
  cbn [app join]. now rewrite !str_app_assoc.
Qed.

(** C5: on status 200 with a body [{timestamp, results}] whose records
    have their four fields, the call is answered with a result of one
    text item; the text is the header with the timestamp, the rule of 60
    signs, and the block of each city in the order of the body. *)
Theorem C5_success_text
    (request_id : json) (params : list (string * json))
    (b b' : backend) (r : response)
    (data timestamp : json) (cities : list (string * WeatherResult)) :
  eq_str (tool_name_of params) "weather_info" = true ->
  requests_post tool_url (arguments_of params) b = (inr r, b') ->
  status_code r = 200 ->
  response_json r = inr data ->
  decode_body data = Some (timestamp, cities) ->
  handle_call_tool request_id (JDict params) b =
    (inr tt,
     [HttpPost tool_url (arguments_of params);
      Stdout (text_result request_id (weather_text timestamp cities))],
     b').
Proof.
  intros Hname Hpost Hstatus Hjson Hbody. apply Z.eqb_eq in Hstatus.
  destruct (format_results_decoded data timestamp cities Hbody)
    as (lines & Hfmt & Htext).
  unfold tool_url in *.
  call_tool params; simpl in *; try discriminate; rewrite Hname; simpl;
    rewrite Hpost; simpl; rewrite Hstatus; simpl; rewrite Hjson; simpl;
    rewrite Hfmt; simpl; unfold text_result; rewrite Htext; reflexivity.
Qed.

(** *** A body that lacks a field *)

Lemma subscript_raises (v : json) (k : string) (e : exn) :
  subscript v k = inl e -> exn_cls e = KeyError \/ exn_cls e = TypeError.
Proof.
  unfold subscript. destruct v; try destruct (lookup k d);
    intros H; inversion H; subst; simpl; auto.
Qed.

Lemma city_lines_raises
    (acc : list string) (city : string) (info : json) (e : exn) :
  city_lines acc city info = inl e ->
  exn_cls e = KeyError \/ exn_cls e = TypeError.
Proof.
  unfold city_lines.
  destruct (subscript info "temperature") eqn:H1;
    [intros H; inversion H; subst; eauto using subscript_raises|].
  destruct (subscript info "condition") eqn:H2;
    [intros H; inversion H; subst; eauto using subscript_raises|].
  destruct (subscript info "humidity") eqn:H3;
    [intros H; inversion H; subst; eauto using subscript_raises|].
  destruct (subscript info "wind_speed") eqn:H4;
    [intros H; inversion H; subst; eauto using subscript_raises|].
  discriminate.
Qed.

Lemma city_lines_lacks (acc : list string) (city : string) (info : json) :
  lacks_field info = true -> exists e, city_lines acc city info = inl e.
Proof.
  destruct info as [| | | | | |f]; try discriminate.
  unfold lacks_field, city_lines, subscript, and_then.
  destruct (lookup "temperature" f); [|eauto].
  destruct (lookup "condition" f); [|eauto].
  destruct (lookup "humidity" f); [|eauto].
  destruct (lookup "wind_speed" f); [discriminate|eauto].
Qed.

Lemma for_cities_raises
    (its : list (string * json)) (acc : list string) (e : exn) :
  for_cities its acc = inl e ->
  exn_cls e = KeyError \/ exn_cls e = TypeError.
Proof.
  revert acc. induction its as [|[city info] its IH]; intros acc; simpl.
  - discriminate.
  - destruct (city_lines acc city info) as [e'|acc'] eqn:Hc; simpl.
    + intros H. inversion H; subst. eauto using city_lines_raises.
    + apply IH.
Qed.

Lemma for_cities_lacks (its : list (string * json)) (acc : list string) :
  existsb (fun ci => lacks_field (snd ci)) its = true ->
  exists e, for_cities its acc = inl e.
Proof.
  revert acc. induction its as [|[city info] its IH]; intros acc; simpl.
  - discriminate.
  - intros H. apply orb_true_iff in H.
    destruct (city_lines acc city info) as [e'|acc'] eqn:Hc; simpl; [eauto|].
    destruct H as [H|H]; [|now apply IH].
    destruct (city_lines_lacks acc city info H) as [e He]. congruence.
Qed.

Lemma format_results_raises (data : json) (e : exn) :
  format_results data = inl e -> exn_cls e <> ConnectionError.
Proof.
  unfold format_results.
  destruct (subscript data "timestamp") eqn:H1.
  { intros H. inversion H; subst.
    destruct (subscript_raises _ _ _ H1) as [E|E]; rewrite E; discriminate. }
  destruct (subscript data "results") as [|results] eqn:H2.
  { intros H. inversion H; subst.
    destruct (subscript_raises _ _ _ H2) as [E|E]; rewrite E; discriminate. }
  destruct results; simpl; try (intros H; inversion H; subst; discriminate).
  intros H. destruct (for_cities_raises _ _ _ H) as [E|E]; rewrite E; discriminate.
Qed.

Lemma format_results_missing (data : json) :
  missing_field data = true -> exists e, format_results data = inl e.
Proof.
  destruct data as [| | | | | |d]; try discriminate.
  unfold missing_field, format_results, subscript, and_then.
  destruct (lookup "timestamp" d); [|eauto].
  destruct (lookup "results" d) as [[| | | | | |its]|]; try discriminate; [|eauto].
  simpl. apply for_cities_lacks.
Qed.

(** C9: on status 200 with a body that lacks [timestamp] or [results],
    or in which the record of a city lacks one of its four fields, the
    call returns and is answered with exactly one response, an error of
    code -32603. *)
Theorem C9_missing_field
    (request_id : json) (params : list (string * json))
    (b b' : backend) (r : response) (data : json) :
  eq_str (tool_name_of params) "weather_info" = true ->
  requests_post tool_url (arguments_of params) b = (inr r, b') ->
  status_code r = 200 ->
  response_json r = inr data ->
  missing_field data = true ->
  exists e,
    format_results data = inl e /\
    handle_call_tool request_id (JDict params) b =
      (inr tt,
       [HttpPost tool_url (arguments_of params);
        Stderr ("ERROR: Error calling HTTP endpoint: " ++ exn_str e);
        Stdout (error_response request_id (-32603)
                  (JStr ("Internal error: " ++ exn_str e)))],
       b').
Proof.
  intros Hname Hpost Hstatus Hjson Hmiss. apply Z.eqb_eq in Hstatus.
  destruct (format_results_missing data Hmiss) as [e Hfmt].
  pose proof (format_results_raises data e Hfmt) as Hcls.
  exists e. split; [exact Hfmt|]. unfold tool_url in *.
  call_tool params; simpl in *; try discriminate; rewrite Hname; simpl;
    rewrite Hpost; simpl; rewrite Hstatus; simpl; rewrite Hjson; simpl;
    rewrite Hfmt; simpl; destruct (exn_cls e); try reflexivity; congruence.
Qed.

(** *** Every call with an object for [params] is answered once *)

Lemma handle_call_tool_answers
    (request_id : json) (params : list (string * json)) (b : backend) :
  result_of (handle_call_tool request_id (JDict params)) b = inr tt /\
  map response_id (stdout (trace_of (handle_call_tool request_id (JDict params)) b))
    = [Some request_id].
Proof.
  unfold handle_call_tool, get.
  destruct (lookup "name" params) as [tool_name|];
    destruct (lookup "arguments" params) as [arguments|]; run; simpl;
    try match goal with |- context [eq_str ?v ?s] => destruct (eq_str v s) end;
    simpl; try (split; reflexivity);
    destruct (requests_post _ _ b) as [[e|r] b1]; simpl;
    try (destruct (exn_cls e); split; reflexivity);
    destruct (status_code r =? 200); simpl;
    destruct (response_json r) as [e|data]; simpl;
    try (destruct (exn_cls e); split; reflexivity).
  all: try (destruct (format_results data) as [e|lines]; simpl;
            [destruct (exn_cls e)|]; split; reflexivity).
  all: destruct data; simpl; try (split; reflexivity);
    destruct (lookup "error" _); split; reflexivity.
Qed.
End Adapter.

(** ** Dispatch and the line loop *)

Section Loop.
Context `{RT : Runtime}.

(** What one turn of the loop does with a line that holds an object. *)
Lemma loop_body_request
    (line : string) (d : list (string * json)) (b : backend) :
  String.eqb (strip line) "" = false ->
  request_of line = inr (JDict d) ->
  loop_body line b =
    try_except
      (bind (log_error ("Received request: " ++ py_str (field (JDict d) "method")))
            (fun _ => dispatch (field (JDict d) "id")
                               (field (JDict d) "method")
                               (params_of (JDict d))))
      (fun e =>
         match exn_cls e with
         | JSONDecodeError => log_error ("Invalid JSON: " ++ exn_str e)
         | _ => log_error ("Error processing request: " ++ exn_str e)
         end) b.
Proof.
  intros Hline Hreq. unfold request_of in Hreq.
  unfold loop_body. cbv zeta. rewrite Hline.
  unfold try_except, bind, lift. rewrite Hreq.
  unfold field, params_of, or_null, get, log_error, emit.
  destruct (lookup "id" d), (lookup "method" d), (lookup "params" d);
    cbv beta iota;
    match goal with
    | |- context [dispatch ?i ?m ?p b] => destruct (dispatch i m p b) as [[r t] b1]
    end; reflexivity.
Qed.

(** The same turn, once [dispatch] has run. *)
Lemma loop_body_dispatched
    (line : string) (d : list (string * json)) (b b1 : backend)
    (r : result unit) (t : list event) :
  String.eqb (strip line) "" = false ->
  request_of line = inr (JDict d) ->
  dispatch (field (JDict d) "id") (field (JDict d) "method")
           (params_of (JDict d)) b = (r, t, b1) ->
  stdout (trace_of (loop_body line) b) = stdout t /\
  protocol (trace_of (loop_body line) b) = protocol t /\
  backend_after (loop_body line) b = b1.
Proof.
  intros Hline Hreq Hd. unfold trace_of, backend_after.
  rewrite (loop_body_request line d b Hline Hreq).
  run. rewrite Hd. destruct r as [e|[]]; simpl.
  - destruct (exn_cls e); simpl;
      rewrite stdout_app, protocol_app; simpl; rewrite !app_nil_r; auto.
  - auto.
Qed.

Lemma dispatch_answers (request_id method params : json) (b : backend) :
  eq_str method "notifications/initialized" = false ->
  (eq_str method "tools/call" = true -> is_dict params = true) ->
  result_of (dispatch request_id method params) b = inr tt /\
  map response_id (stdout (trace_of (dispatch request_id method params) b))
    = [Some request_id].
Proof.
  intros Hnote Hcall. unfold dispatch. rewrite Hnote.
  destruct (eq_str method "initialize"); [split; reflexivity|].
  destruct (eq_str method "tools/list"); [split; reflexivity|].
  destruct (eq_str method "tools/call").
  - destruct params; try (specialize (Hcall eq_refl); discriminate).
    apply handle_call_tool_answers.
  - destruct (eq_str method "ping"); split; reflexivity.
Qed.

(** A line that is answered, taken apart. *)
Lemma answered_request (line : string) :
  answered line = true ->
  exists d,
    String.eqb (strip line) "" = false /\
    request_of line = inr (JDict d) /\
    eq_str (field (JDict d) "method") "notifications/initialized" = false /\
    (eq_str (field (JDict d) "method") "tools/call" = true ->
     is_dict (params_of (JDict d)) = true).
Proof.
  unfold answered. intros H. apply andb_true_iff in H as [Hline H].
  apply negb_true_iff in Hline.
  destruct (request_of line) as [e|[| | | | | |d]]; try discriminate.
  apply andb_true_iff in H as [Hnote Hcall]. apply negb_true_iff in Hnote.
  exists d. repeat split; try assumption.
  intros Hm. now rewrite Hm in Hcall.
Qed.

Lemma loop_body_answers (line : string) (b : backend) :
  answered line = true ->
  map response_id (stdout (trace_of (loop_body line) b)) = [Some (id_of line)].
Proof.
  intros H. destruct (answered_request line H) as (d & Hline & Hreq & Hnote & Hcall).
  destruct (dispatch_answers (field (JDict d) "id") (field (JDict d) "method")
              (params_of (JDict d)) b Hnote Hcall) as [_ Hids].
  unfold trace_of in Hids.
  destruct (dispatch (field (JDict d) "id") (field (JDict d) "method")
              (params_of (JDict d)) b) as [[r t] b1] eqn:Hd.
  destruct (loop_body_dispatched line d b b1 r t Hline Hreq Hd) as [Hout _].
  rewrite Hout. unfold id_of. rewrite Hreq. exact Hids.
Qed.

(** A blank line, or one whose text [json.loads] rejects. *)
Lemma loop_body_skips (line : string) (b : backend) :
  strip line = "" \/ (exists e, request_of line = inl e) ->
  protocol (trace_of (loop_body line) b) = [] /\
  backend_after (loop_body line) b = b.
Proof.
  unfold request_of, loop_body. cbv zeta. intros [Hblank|[e He]].
  - rewrite Hblank. split; reflexivity.
  - destruct (String.eqb (strip line) ""); [split; reflexivity|].
    run. rewrite He. simpl. destruct (exn_cls e); split; reflexivity.
Qed.

(** C1, amended: when every line of the input holds a request object,
    none of them is the notification [notifications/initialized] nor a
    [tools/call] whose [params] is not an object, the run writes
    exactly one response for each line, in the order of the lines, and
    each carries the [id] of its request ([null] for a request without
    one). *)
Theorem C1_one_response_per_request_in_order
    (stdin : list string) (b : backend) :
  forallb answered stdin = true ->
  result_of (main (decoded stdin)) b = inr tt /\
  map response_id (stdout (trace_of (main (decoded stdin)) b)) =
    map (fun line => Some (id_of line)) stdin.
Proof.
  intros Hall. split; [apply main_returns|].
  rewrite main_stdout. generalize (backend_after probe b). clear b.
  induction stdin as [|line rest IH]; intros b; [reflexivity|].
  simpl in Hall. apply andb_true_iff in Hall as [Hline Hrest].
  rewrite decoded_cons.
  destruct (for_lines_cons line (decoded rest) b) as [Ht _].
  rewrite Ht, stdout_app, map_app, (loop_body_answers line b Hline).
  simpl. f_equal. now apply IH.
Qed.

(** *** Every response carries the [id] of its request *)




(** C6: a request object whose method is none of the five names, an
    absent method included, is answered with error -32601 and the
    message "Method not found: " followed by the method as Python
    prints it, which for an absent method is [None]. *)
Theorem C6_method_not_found
    (line : string) (d : list (string * json)) (b : backend) :
  strip line <> "" ->
  request_of line = inr (JDict d) ->
  recognized (field (JDict d) "method") = false ->
  stdout (trace_of (loop_body line) b) =
    [error_response (field (JDict d) "id") (-32601)
       (JStr ("Method not found: " ++ py_str (field (JDict d) "method")))]
  /\
  (lookup "method" d = None ->
   stdout (trace_of (loop_body line) b) =
     [error_response (field (JDict d) "id") (-32601)
        (JStr "Method not found: None")]).
Proof.
  intros Hline Hreq Hrec. apply String.eqb_neq in Hline.
  assert (Hd : dispatch (field (JDict d) "id") (field (JDict d) "method")
                 (params_of (JDict d)) b =
               (inr tt,
                [Stdout (error_response (field (JDict d) "id") (-32601)
                   (JStr ("Method not found: " ++
                          py_str (field (JDict d) "method"))))],
                b)).
  { unfold recognized in Hrec. repeat apply orb_false_iff in Hrec as [Hrec ?].
    unfold dispatch.
    repeat match goal with H : eq_str _ _ = false |- _ => rewrite H; clear H end.
    reflexivity. }
  destruct (loop_body_dispatched line d b b _ _ Hline Hreq Hd) as (Hout & _).
  split; [exact Hout|].
  intros Hm. rewrite Hout. unfold field at 2, or_null. rewrite Hm. reflexivity.
Qed.

(** The whole trace of such a line: nothing for a blank line, one
    diagnostic for a line that is not JSON. *)
Lemma loop_body_blank (line : string) (b : backend) :
  strip line = "" -> loop_body line b = (inr tt, [], b).
Proof.
  intros Hblank. unfold loop_body. cbv zeta. rewrite Hblank. reflexivity.
Qed.




(** *** Nothing is kept from one line to the next *)

Lemma handle_call_tool_same_answer
    (request_id params : json) (b b' : backend) :
  (forall arguments,
     fst (requests_post tool_url arguments b') =
     fst (requests_post tool_url arguments b)) ->
  fst (handle_call_tool request_id params b') =
  fst (handle_call_tool request_id params b).
Proof.
  intros Hsame. unfold tool_url in Hsame. simpl in Hsame.
  destruct params as [| | | | | |d]; try reflexivity.
  unfold handle_call_tool, get.
  destruct (lookup "name" d) as [tool_name|];
    destruct (lookup "arguments" d) as [arguments|]; run; simpl;
    try match goal with |- context [eq_str ?v ?s] => destruct (eq_str v s) end;
    simpl; try reflexivity;
    match goal with
    | |- context [requests_post ?u ?a b] =>
        specialize (Hsame a); revert Hsame;
        destruct (requests_post u a b) as [[e|r] b1];
        destruct (requests_post u a b') as [r' b1'];
        simpl; intros ->; simpl
    end;
    try (destruct (exn_cls e); reflexivity);
    destruct (status_code r =? 200); simpl;
    destruct (response_json r) as [e|data]; simpl;
    try (destruct (exn_cls e); reflexivity).
  all: try (destruct (format_results data) as [e|lines]; simpl;
            [destruct (exn_cls e)|]; reflexivity).
  all: destruct data; simpl; try reflexivity;
    destruct (lookup "error" _); reflexivity.
Qed.

Lemma dispatch_same_answer
    (request_id method params : json) (b b' : backend) :
  (forall arguments,
     fst (requests_post tool_url arguments b') =
     fst (requests_post tool_url arguments b)) ->
  fst (dispatch request_id method params b') =
  fst (dispatch request_id method params b).
Proof.
  intros Hsame. unfold dispatch.
  destruct (eq_str method "initialize"); [reflexivity|].
  destruct (eq_str method "tools/list"); [reflexivity|].
  destruct (eq_str method "tools/call");
    [now apply handle_call_tool_same_answer|].
  destruct (eq_str method "ping"); [reflexivity|].
  destruct (eq_str method "notifications/initialized"); reflexivity.
Qed.

Lemma loop_body_same_answer (line : string) (b b' : backend) :
  (forall arguments,
     fst (requests_post tool_url arguments b') =
     fst (requests_post tool_url arguments b)) ->
  trace_of (loop_body line) b' = trace_of (loop_body line) b.
Proof.
  intros Hsame. unfold trace_of.
  destruct (String.eqb (strip line) "") eqn:Hline.
  { unfold loop_body. cbv zeta. rewrite Hline. reflexivity. }
  destruct (request_of line) as [e|request] eqn:Hreq.
  { unfold request_of in Hreq. unfold loop_body. cbv zeta.
    rewrite Hline. run. rewrite Hreq. simpl.
    destruct (exn_cls e); reflexivity. }
  destruct request as [| | | | | |d];
    try (unfold request_of in Hreq; unfold loop_body; cbv zeta;
         rewrite Hline; run; rewrite Hreq; reflexivity).
  rewrite !(loop_body_request line d _ Hline Hreq).
  pose proof (dispatch_same_answer (field (JDict d) "id")
                (field (JDict d) "method") (params_of (JDict d)) b b' Hsame)
    as Hd.
  run.
  destruct (dispatch _ _ _ b) as [[r t] b1].
  destruct (dispatch _ _ _ b') as [[r' t'] b1'].
  simpl in Hd. injection Hd as -> ->.
  destruct r as [e|[]]; simpl; [destruct (exn_cls e)|]; reflexivity.
Qed.

(** C10: what the bridge writes for a line depends on the line and on
    the answer of the backend only: from two backend states that answer
    the tool request alike, the line gets the same responses; so a line
    read twice in succession, with the backend answering the second
    time as the first, gets the same responses twice. *)
Theorem C10_replay_same_response (line : string) (b b' : backend) :
  (forall arguments,
     fst (requests_post tool_url arguments b') =
     fst (requests_post tool_url arguments b)) ->
  stdout (trace_of (loop_body line) b') = stdout (trace_of (loop_body line) b)
  /\
  (b' = backend_after (loop_body line) b ->
   stdout (trace_of (for_lines [Line line; Line line]) b) =
     (stdout (trace_of (loop_body line) b) ++
      stdout (trace_of (loop_body line) b))%list).
Proof.
  intros Hsame. pose proof (loop_body_same_answer line b b' Hsame) as Ht.
  split; [now rewrite Ht|]. intros ->.
  destruct (for_lines_cons line [Line line] b) as [H1 _].
  destruct (for_lines_cons line [] (backend_after (loop_body line) b)) as [H2 _].
  rewrite H1, H2, Ht. simpl. rewrite app_nil_r. apply stdout_app.
Qed.
End Loop.

(** ** The script at work on the sample runtime *)

(** C1, as stated, fails: a [notifications/initialized] that carries
    [id] 1 gets no response, and neither does a [tools/call] with
    [id] 7 whose [params] is a list. *)
Lemma C1_counterexample :
  field (JDict [("jsonrpc", JStr "2.0"); ("id", JInt 1);
                ("method", JStr "notifications/initialized")]) "id" = JInt 1 /\
  request_of (Sample.req_initialized ++ nl) =
    inr (JDict [("jsonrpc", JStr "2.0"); ("id", JInt 1);
                ("method", JStr "notifications/initialized")]) /\
  stdout (trace_of (main [Line (Sample.req_initialized ++ nl)]) [Sample.alive])
    = [] /\
  request_of (Sample.req_params_list ++ nl) =
    inr (JDict [("jsonrpc", JStr "2.0"); ("id", JInt 7);
                ("method", JStr "tools/call"); ("params", JList [])]) /\
  stdout (trace_of (main [Line (Sample.req_params_list ++ nl)]) [Sample.alive])
    = [].
Proof. repeat split; vm_compute; reflexivity. Qed.

Lemma C1_witness :
  map response_id
    (stdout (trace_of
       (main (decoded [Sample.req_ping ++ nl; Sample.req_weather ++ nl;
                       Sample.req_no_method ++ nl]))
       [Sample.alive; Sample.paris_ok])) =
  [Some (JInt 2); Some (JInt 6); Some (JInt 4)].
Proof.
  exact (proj2 (C1_one_response_per_request_in_order
                  [Sample.req_ping ++ nl; Sample.req_weather ++ nl;
                   Sample.req_no_method ++ nl]
                  [Sample.alive; Sample.paris_ok] eq_refl)).
Defined.



(** C3, as stated, fails: on status 500 with a body that is not JSON
    the error has code -32603, not 500, and its message is not
    "HTTP request failed". *)
Lemma C3_counterexample :
  stdout (trace_of (main [Line (Sample.req_weather ++ nl)])
            [Sample.alive; inr (Response 500 Sample.bad_body)]) =
    [error_response (JInt 6) (-32603)
       (JStr "Internal error: Expecting value: line 1 column 1 (char 0)")].
Proof. vm_compute. reflexivity. Qed.

Lemma C3_witness :
  handle_call_tool (JInt 6) (JDict Sample.weather_params)
    [inr (Response 404 (inr Sample.not_found_body))] =
    (inr tt,
     [HttpPost tool_url Sample.paris_args;
      Stdout (error_response (JInt 6) 404 (JStr "city not found"))],
     []).
Proof.
  refine (proj1 (C3_http_error_status (JInt 6) Sample.weather_params
                   [inr (Response 404 (inr Sample.not_found_body))] []
                   (Response 404 (inr Sample.not_found_body))
                   eq_refl eq_refl _)
            [("error", JStr "city not found")] eq_refl).
  simpl. lia.
Defined.

Lemma C4_witness :
  handle_call_tool (JInt 5)
    (JDict [("name", JStr "forecast"); ("arguments", Sample.paris_args)])
    [Sample.paris_ok] =
    (inr tt,
     [Stdout (error_response (JInt 5) (-32601) (JStr "Unknown tool: forecast"))],
     [Sample.paris_ok]).
Proof.
  exact (C4_unknown_tool (JInt 5)
           [("name", JStr "forecast"); ("arguments", Sample.paris_args)]
           [Sample.paris_ok] eq_refl).
Defined.

Lemma C5_witness :
  handle_call_tool (JInt 6) (JDict Sample.weather_params) [Sample.paris_ok] =
    (inr tt,
     [HttpPost tool_url Sample.paris_args;
      Stdout (text_result (JInt 6)
                (weather_text (JStr "2024-01-01T00:00:00Z")
                   [("Paris", Sample.paris_record)]))],
     []).
Proof.
  exact (C5_success_text (JInt 6) Sample.weather_params [Sample.paris_ok] []
           (Response 200 (inr Sample.paris_body)) Sample.paris_body
           (JStr "2024-01-01T00:00:00Z") [("Paris", Sample.paris_record)]
           eq_refl eq_refl eq_refl eq_refl eq_refl).
Defined.

Lemma C6_witness :
  stdout (trace_of (loop_body (Sample.req_no_method ++ nl)) []) =
    [error_response (JInt 4) (-32601) (JStr "Method not found: None")].
Proof.
  refine (proj2 (C6_method_not_found (Sample.req_no_method ++ nl)
                   [("jsonrpc", JStr "2.0"); ("id", JInt 4)] []
                   _ eq_refl eq_refl) eq_refl).
  vm_compute. discriminate.
Defined.

Lemma C7_witness :
  handle_call_tool (JInt 6) (JDict Sample.weather_params) [] =
    (inr tt,
     [HttpPost tool_url Sample.paris_args;
      Stdout (error_response (JInt 6) (-32603) (JStr connect_message))],
     []).
Proof.
  exact (C7_backend_unreachable (JInt 6) Sample.weather_params [] [] Sample.refused
           eq_refl eq_refl eq_refl).
Defined.



Lemma C9_witness :
  exists e,
    format_results Sample.no_humidity_body = inl e /\
    handle_call_tool (JInt 6) (JDict Sample.weather_params)
      [inr (Response 200 (inr Sample.no_humidity_body))] =
      (inr tt,
       [HttpPost tool_url Sample.paris_args;
        Stderr ("ERROR: Error calling HTTP endpoint: " ++ exn_str e);
        Stdout (error_response (JInt 6) (-32603)
                  (JStr ("Internal error: " ++ exn_str e)))],
       []).
Proof.
  exact (C9_missing_field (JInt 6) Sample.weather_params
           [inr (Response 200 (inr Sample.no_humidity_body))] []
           (Response 200 (inr Sample.no_humidity_body)) Sample.no_humidity_body
           eq_refl eq_refl eq_refl eq_refl eq_refl).
Defined.

Lemma C10_witness :
  stdout (trace_of (for_lines [Line (Sample.req_weather ++ nl);
                               Line (Sample.req_weather ++ nl)])
            [Sample.paris_ok; Sample.paris_ok]) =
  (stdout (trace_of (loop_body (Sample.req_weather ++ nl)) [Sample.paris_ok; Sample.paris_ok]) ++
   stdout (trace_of (loop_body (Sample.req_weather ++ nl)) [Sample.paris_ok; Sample.paris_ok]))%list.
Proof.
  exact (proj2 (C10_replay_same_response (Sample.req_weather ++ nl)
                  [Sample.paris_ok; Sample.paris_ok] [Sample.paris_ok]
                  (fun _ => eq_refl)) eq_refl).
Defined.

(** ** Examples of the specification *)

(** The layout of the text for the body of the backend contract. *)
Example paris_text :
  weather_text (JStr "2024-01-01T00:00:00Z") [("Paris", Sample.paris_record)] =
    "Weather Information (Retrieved: 2024-01-01T00:00:00Z)" ++ nl ++
    "============================================================" ++ nl ++
    nl ++ "🌍 Paris" ++ nl ++
    "   Temperature: 18°C" ++ nl ++
    "   Condition: Cloudy" ++ nl ++
    "   Humidity: 60%" ++ nl ++
    "   Wind Speed: 12 km/h".
Proof. reflexivity. Qed.

(** A session: responses come in the order of the requests, the blank
    line and the notification leave nothing, and only the call of the
    tool reaches the backend. *)
Example session :
  protocol
    (trace_of
       (main (decoded [Sample.req_ping ++ nl;
                       nl;
                       Sample.req_initialized ++ nl;
                       Sample.req_weather ++ nl;
                       Sample.req_unknown_method ++ nl;
                       Sample.req_unknown_tool ++ nl]))
       [Sample.alive; inr (Response 404 (inr Sample.not_found_body))]) =
    [HttpGet "http://localhost:3000/mcp";
     Stdout (JDict [("jsonrpc", JStr "2.0"); ("id", JInt 2); ("result", JDict [])]);
     HttpPost tool_url Sample.paris_args;
     Stdout (error_response (JInt 6) 404 (JStr "city not found"));
     Stdout (error_response (JInt 3) (-32601)
               (JStr "Method not found: resources/list"));
     Stdout (error_response (JInt 5) (-32601) (JStr "Unknown tool: forecast"))].
Proof. vm_compute. reflexivity. Qed.

(** * Further properties of the script *)

Lemma http_requests_app (t1 t2 : list event) :
  http_requests (t1 ++ t2) = (http_requests t1 ++ http_requests t2)%list.
Proof.
  induction t1 as [|ev t1 IH]; simpl; [reflexivity|].
  destruct ev; simpl; rewrite IH; reflexivity.
Qed.

Lemma stderr_app (t1 t2 : list event) :
  stderr (t1 ++ t2) = (stderr t1 ++ stderr t2)%list.
Proof.
  induction t1 as [|ev t1 IH]; simpl; [reflexivity|].
  destruct ev; simpl; rewrite IH; reflexivity.
Qed.

Section Startup.
Context `{RT : Runtime}.

(** X1: how [main] ends. When every read of standard input gives a
    line, [main] returns normally, whatever the lines and the backend:
    no exception of a turn, of the probe or of the backend leaves the
    loop. When a read raises, [main] raises that exception: the lines
    read before it have been handled as in the run on them alone, and
    no later read is handled. *)
Theorem X1_main_ends_with_the_reads
    (lines : list string) (b : backend) :
  result_of (main (decoded lines)) b = inr tt /\
  (forall e rest,
     result_of (main (decoded lines ++ ReadError e :: rest)) b = inl e /\
     trace_of (main (decoded lines ++ ReadError e :: rest)) b =
       trace_of (main (decoded lines)) b /\
     backend_after (main (decoded lines ++ ReadError e :: rest)) b =
       backend_after (main (decoded lines)) b).
Proof.
  split; [apply main_returns|]. intros e rest.
  destruct (main_trace (decoded lines ++ ReadError e :: rest) b)
    as (Ht & Hb & Hr).
  destruct (main_trace (decoded lines) b) as (Ht' & Hb' & _).
  destruct (for_lines_app lines (ReadError e :: rest) (backend_after probe b))
    as [Ha Hc].
  rewrite Ht, Hb, Hr, Ht', Hb', for_lines_app_result, Ha, Hc.
  unfold result_of, trace_of, backend_after.
  rewrite !for_lines_raise. simpl. rewrite app_nil_r. repeat split.
Qed.

(** X2: the startup probe is advisory. It makes one GET to [/mcp],
    writes nothing to standard output and never raises; status 200 is
    logged as a success, any other status as a warning, and an
    exception of the GET as two warnings. *)
Theorem X2_probe_is_advisory (b : backend) :
  (forall e b1, requests_get probe_url b = (inl e, b1) ->
     probe b =
       (inr tt,
        [HttpGet probe_url;
         Stderr "ERROR: WARNING: Cannot connect to Rust Weather API HTTP server on port 3000";
         Stderr "ERROR: Please start the server with: cargo run --bin server"],
        b1)) /\
  (forall r b1, requests_get probe_url b = (inr r, b1) -> status_code r = 200 ->
     probe b =
       (inr tt,
        [HttpGet probe_url;
         Stderr "ERROR: Successfully connected to Rust Weather API HTTP server"],
        b1)) /\
  (forall r b1, requests_get probe_url b = (inr r, b1) -> status_code r <> 200 ->
     probe b =
       (inr tt,
        [HttpGet probe_url;
         Stderr "ERROR: WARNING: Rust Weather API HTTP server returned unexpected status"],
        b1)).
Proof.
  unfold probe_url. repeat split.
  - intros e b1 Hget. unfold probe. run. rewrite Hget. reflexivity.
  - intros r b1 Hget Hs. apply Z.eqb_eq in Hs.
    unfold probe. run. rewrite Hget. simpl. rewrite Hs. reflexivity.
  - intros r b1 Hget Hs. apply Z.eqb_neq in Hs.
    unfold probe. run. rewrite Hget. simpl. rewrite Hs. reflexivity.
Qed.

(** X3: the bridge answers as it reads. The trace of a run on the
    lines [l1] followed by any further reads [l2] is the trace of the
    run on [l1] followed by the turns of [l2] from the backend state
    that run left: what is written for a line never waits for, nor
    depends on, a later read. *)
Theorem X3_run_of_a_prefix
    (l1 : list string) (l2 : list read) (b : backend) :
  trace_of (main (decoded l1 ++ l2)) b =
    (trace_of (main (decoded l1)) b ++
     trace_of (for_lines l2) (backend_after (main (decoded l1)) b))%list /\
  backend_after (main (decoded l1 ++ l2)) b =
    backend_after (for_lines l2) (backend_after (main (decoded l1)) b).
Proof.
  destruct (main_trace (decoded l1 ++ l2) b) as (Ht & Hb & _).
  destruct (main_trace (decoded l1) b) as (Ht1 & Hb1 & _).
  destruct (for_lines_app l1 l2 (backend_after probe b)) as [Ha Hc].
  rewrite Ht, Hb, Ht1, Hb1, Ha, Hc. split; [|reflexivity].
  simpl. now rewrite app_assoc.
Qed.
End Startup.

(** ** The tool adapter on answers outside the contract *)

Section Calls.
Context `{RT : Runtime}.

Lemma city_lines_undecoded (acc : list string) (city : string) (info : json) :
  decode_record info = None -> exists e, city_lines acc city info = inl e.
Proof.
  unfold decode_record, city_lines, subscript, and_then.
  destruct info as [| | | | | |f]; try (intros _; eauto; fail).
  destruct (lookup "temperature" f); [|eauto].
  destruct (lookup "condition" f); [|eauto].
  destruct (lookup "humidity" f); [|eauto].
  destruct (lookup "wind_speed" f); [discriminate|eauto].
Qed.

Lemma for_cities_undecoded (its : list (string * json)) (acc : list string) :
  decode_results its = None -> exists e, for_cities its acc = inl e.
Proof.
  revert acc. induction its as [|[city info] its IH]; intros acc; simpl.
  - discriminate.
  - destruct (decode_record info) as [w|] eqn:Hw.
    + destruct (decode_results its) as [ws|]; [discriminate|]. intros _.
      destruct (city_lines acc city info) as [e|acc']; simpl; [eauto|].
      now apply IH.
    + intros _. destruct (city_lines_undecoded acc city info Hw) as [e He].
      rewrite He. simpl. eauto.
Qed.

(** The loop of the script succeeds on the bodies of the backend
    contract and on no other. *)
Lemma format_results_undecoded (data : json) :
  decode_body data = None -> exists e, format_results data = inl e.
Proof.
  unfold decode_body, format_results, subscript, and_then.
  destruct data as [| | | | | |d]; try (intros _; eauto; fail).
  destruct (lookup "timestamp" d); [|eauto].
  destruct (lookup "results" d) as [[| | | | | |its]|];
    try (intros _; simpl; eauto; fail).
  simpl. destruct (decode_results its) eqn:Hd; [discriminate|]. intros _.
  now apply for_cities_undecoded.
Qed.

Ltac supported params Hname :=
  unfold handle_call_tool, get, tool_name_of, arguments_of, or_null, tool_url in *;
  destruct (lookup "name" params) as [tool_name|];
  destruct (lookup "arguments" params) as [arguments|];
  run; simpl in *; try discriminate; rewrite Hname; simpl.

(** X4: any exception of the call other than a connection error is
    logged and answered with error -32603, with "Internal error: " and
    the text of the exception: an exception of the POST itself (a
    timeout, say), a body of a 200 that does not decode, and a body of
    another status that decodes to something that is not an object. *)
Theorem X4_other_exceptions
    (request_id : json) (params : list (string * json)) (b b' : backend) :
  eq_str (tool_name_of params) "weather_info" = true ->
  (forall e,
     requests_post tool_url (arguments_of params) b = (inl e, b') ->
     exn_cls e <> ConnectionError ->
     handle_call_tool request_id (JDict params) b =
       (inr tt,
        [HttpPost tool_url (arguments_of params);
         Stderr ("ERROR: Error calling HTTP endpoint: " ++ exn_str e);
         Stdout (error_response request_id (-32603)
                   (JStr ("Internal error: " ++ exn_str e)))],
        b')) /\
  (forall r e,
     requests_post tool_url (arguments_of params) b = (inr r, b') ->
     status_code r = 200 ->
     response_json r = inl e ->
     exn_cls e <> ConnectionError ->
     handle_call_tool request_id (JDict params) b =
       (inr tt,
        [HttpPost tool_url (arguments_of params);
         Stderr ("ERROR: Error calling HTTP endpoint: " ++ exn_str e);
         Stdout (error_response request_id (-32603)
                   (JStr ("Internal error: " ++ exn_str e)))],
        b')) /\
  (forall r body,
     requests_post tool_url (arguments_of params) b = (inr r, b') ->
     status_code r <> 200 ->
     response_json r = inr body ->
     is_dict body = false ->
     handle_call_tool request_id (JDict params) b =
       (inr tt,
        [HttpPost tool_url (arguments_of params);
         Stderr ("ERROR: Error calling HTTP endpoint: '" ++ type_name body ++
                 "' object has no attribute 'get'");
         Stdout (error_response request_id (-32603)
                   (JStr ("Internal error: '" ++ type_name body ++
                          "' object has no attribute 'get'")))],
        b')).
Proof.
  intros Hname. repeat split.
  - intros e Hpost Hcls.
    supported params Hname; rewrite Hpost; simpl;
      destruct (exn_cls e); try reflexivity; congruence.
  - intros r e Hpost Hs Hjson Hcls. apply Z.eqb_eq in Hs.
    supported params Hname; rewrite Hpost; simpl; rewrite Hs; simpl;
      rewrite Hjson; simpl; destruct (exn_cls e); try reflexivity; congruence.
  - intros r body Hpost Hs Hjson Hbody. apply Z.eqb_neq in Hs.
    supported params Hname; rewrite Hpost; simpl; rewrite Hs; simpl;
      rewrite Hjson; simpl; destruct body; try discriminate; reflexivity.
Qed.

(** X5: on status 200, a decoded body that is not of the shape of the
    backend contract, for whatever reason (it is not an object,
    [results] is not an object, the record of a city is not an object
    or lacks a field, ...), makes the loop of the script raise, and the
    call is answered with exactly one response, error -32603 with the
    text of that exception. *)
Theorem X5_malformed_success_body
    (request_id : json) (params : list (string * json))
    (b b' : backend) (r : response) (data : json) :
  eq_str (tool_name_of params) "weather_info" = true ->
  requests_post tool_url (arguments_of params) b = (inr r, b') ->
  status_code r = 200 ->
  response_json r = inr data ->
  decode_body data = None ->
  exists e,
    format_results data = inl e /\
    handle_call_tool request_id (JDict params) b =
      (inr tt,
       [HttpPost tool_url (arguments_of params);
        Stderr ("ERROR: Error calling HTTP endpoint: " ++ exn_str e);
        Stdout (error_response request_id (-32603)
                  (JStr ("Internal error: " ++ exn_str e)))],
       b').
Proof.
  intros Hname Hpost Hs Hjson Hdec. apply Z.eqb_eq in Hs.
  destruct (format_results_undecoded data Hdec) as [e Hfmt].
  pose proof (format_results_raises data e Hfmt) as Hcls.
  exists e. split; [exact Hfmt|].
  supported params Hname; rewrite Hpost; simpl; rewrite Hs; simpl;
    rewrite Hjson; simpl; rewrite Hfmt; simpl;
    destruct (exn_cls e); try reflexivity; congruence.
Qed.
End Calls.

(** ** Turns of the loop that are only logged *)

Lemma http_requests_protocol (t : list event) :
  http_requests (protocol t) = http_requests t.
Proof.
  induction t as [|ev t IH]; simpl; [reflexivity|].
  destruct ev; simpl; rewrite IH; reflexivity.
Qed.

Section Turns.
Context `{RT : Runtime}.

Lemma loop_body_not_object
    (line : string) (request : json) (b : backend) :
  strip line <> "" ->
  request_of line = inr request ->
  is_dict request = false ->
  loop_body line b =
    (inr tt,
     [Stderr ("ERROR: Error processing request: '" ++ type_name request ++
              "' object has no attribute 'get'")],
     b).
Proof.
  intros Hline Hreq Hdict. apply String.eqb_neq in Hline.
  unfold request_of in Hreq. unfold loop_body. cbv zeta. rewrite Hline.
  run. rewrite Hreq. destruct request; try discriminate; reflexivity.
Qed.

Lemma loop_body_params_not_object
    (line : string) (d : list (string * json)) (b : backend) :
  strip line <> "" ->
  request_of line = inr (JDict d) ->
  eq_str (field (JDict d) "method") "tools/call" = true ->
  is_dict (params_of (JDict d)) = false ->
  loop_body line b =
    (inr tt,
     [Stderr "ERROR: Received request: tools/call";
      Stderr ("ERROR: Error processing request: '" ++
              type_name (params_of (JDict d)) ++
              "' object has no attribute 'get'")],
     b).
Proof.
  intros Hline Hreq Hm Hp. apply String.eqb_neq in Hline.
  rewrite (loop_body_request line d b Hline Hreq).
  apply eq_str_true in Hm. rewrite Hm.
  remember (params_of (JDict d)) as p eqn:Ep. clear Ep.
  destruct p; try discriminate; reflexivity.
Qed.


(** X6: a line of valid JSON that is not an object (a list, a string,
    a number, [null], ...) is not a request: [request.get] raises, the
    turn writes one diagnostic with the type of the value to standard
    error and nothing else, and the backend is not touched. *)
Theorem X6_request_not_an_object
    (line : string) (request : json) (b : backend) :
  strip line <> "" ->
  request_of line = inr request ->
  is_dict request = false ->
  loop_body line b =
    (inr tt,
     [Stderr ("ERROR: Error processing request: '" ++ type_name request ++
              "' object has no attribute 'get'")],
     b).
Proof. exact (loop_body_not_object line request b). Qed.

(** X7: a [tools/call] whose [params] is not an object (a list, a
    string, [null], ...) gets no response, whatever its [id]: the turn
    logs the request, then the exception of [params.get], and makes no
    HTTP request. *)
Theorem X7_call_params_not_an_object
    (line : string) (d : list (string * json)) (b : backend) :
  strip line <> "" ->
  request_of line = inr (JDict d) ->
  eq_str (field (JDict d) "method") "tools/call" = true ->
  is_dict (params_of (JDict d)) = false ->
  loop_body line b =
    (inr tt,
     [Stderr "ERROR: Received request: tools/call";
      Stderr ("ERROR: Error processing request: '" ++
              type_name (params_of (JDict d)) ++
              "' object has no attribute 'get'")],
     b).
Proof. exact (loop_body_params_not_object line d b). Qed.
End Turns.

(** ** Every outcome of a call *)

Section Outcomes.
Context `{RT : Runtime}.

(** Takes a call with an object for [params] apart, one goal for each
    path through [handle_call_tool]. *)
Ltac split_call params b :=
  unfold handle_call_tool, get, tool_name_of, arguments_of, or_null, tool_url;
  destruct (lookup "name" params) as [tool_name|];
  destruct (lookup "arguments" params) as [arguments|];
  run; simpl;
  try match goal with
      | |- context [eq_str ?v ?s] => destruct (eq_str v s) eqn:Hsup
      end; simpl;
  try match goal with
      | |- context [requests_post ?u ?a b] =>
          destruct (requests_post u a b) as [[e|r] b1] eqn:Hpost; simpl;
          [ destruct (exn_cls e) eqn:Hcls; simpl
          | destruct (status_code r =? 200) eqn:Hs; simpl;
            (destruct (response_json r) as [e|data] eqn:Hjson; simpl;
             [ destruct (exn_cls e) eqn:Hcls; simpl | ]) ]
      end;
  try match goal with
      | |- context [format_results ?data] =>
          destruct (format_results data) as [e|lines] eqn:Hfmt; simpl;
          [ destruct (exn_cls e) eqn:Hcls; simpl | ]
      end;
  try match goal with
      | |- context [match ?data with JDict _ => _ | _ => _ end] =>
          destruct data as [| | | | | |body]; simpl;
          try destruct (lookup "error" body); simpl
      end.

Lemma handle_call_tool_http
    (request_id : json) (params : list (string * json)) (b : backend) :
  http_requests (trace_of (handle_call_tool request_id (JDict params)) b) =
    (if eq_str (tool_name_of params) "weather_info"
     then [HttpPost tool_url (arguments_of params)]
     else []) /\
  backend_after (handle_call_tool request_id (JDict params)) b =
    (if eq_str (tool_name_of params) "weather_info"
     then snd (requests_post tool_url (arguments_of params) b)
     else b).
Proof.
  split_call params b; try rewrite Hpost; split; reflexivity.
Qed.

Lemma handle_call_tool_envelope (request_id params : json) (b : backend) :
  forallb is_envelope
    (stdout (trace_of (handle_call_tool request_id params) b)) = true.
Proof.
  destruct params as [| | | | | |params]; try reflexivity.
  split_call params b; reflexivity.
Qed.

(** X8: a call is answered with a [result] only if the POST returned
    status 200 with a body of the shape of the backend contract, and
    the result is then the text of that body: the bridge never reports
    a success of its own. *)
Theorem X8_success_only_from_the_backend
    (request_id : json) (params : list (string * json)) (b : backend)
    (resp : json) :
  In resp (stdout (trace_of (handle_call_tool request_id (JDict params)) b)) ->
  result_member resp <> None ->
  exists r b' data timestamp cities,
    eq_str (tool_name_of params) "weather_info" = true /\
    requests_post tool_url (arguments_of params) b = (inr r, b') /\
    status_code r = 200 /\
    response_json r = inr data /\
    decode_body data = Some (timestamp, cities) /\
    resp = text_result request_id (weather_text timestamp cities).
Proof.
  split_call params b;
    (intros [<-|[]] Hres; try (exfalso; apply Hres; reflexivity; fail)).
  all: apply Z.eqb_eq in Hs.
  all: destruct (decode_body data) as [[timestamp cities]|] eqn:Hdec;
    [| destruct (format_results_undecoded data Hdec) as [e He]; congruence ].
  all: destruct (format_results_decoded data timestamp cities Hdec)
         as (lines' & Hfmt' & Htext).
  all: assert (lines' = lines) by congruence; subst lines'.
  all: exists r, b1, data, timestamp, cities.
  all: unfold text_result; rewrite <- Htext; repeat split; auto.
Qed.

(** X9: the error codes of a call. An error response to a call of a
    tool other than [weather_info] has code -32601; an error response
    to a call of [weather_info] has code -32603, or the status of the
    backend's answer when that status is not 200 and the body decodes
    to an object. *)
Theorem X9_error_codes_of_a_call
    (request_id : json) (params : list (string * json)) (b : backend)
    (resp : json) (c : Z) :
  In resp (stdout (trace_of (handle_call_tool request_id (JDict params)) b)) ->
  error_code resp = Some c ->
  (eq_str (tool_name_of params) "weather_info" = false /\ c = -32601) \/
  (eq_str (tool_name_of params) "weather_info" = true /\ c = -32603) \/
  (eq_str (tool_name_of params) "weather_info" = true /\
   exists r b' body,
     requests_post tool_url (arguments_of params) b = (inr r, b') /\
     status_code r <> 200 /\
     response_json r = inr (JDict body) /\
     c = status_code r).
Proof.
  split_call params b;
    (intros [<-|[]] Hc; simpl in Hc; try discriminate;
     injection Hc as <-;
     first [ left; split; reflexivity
           | right; left; split; reflexivity
           | right; right; split; [reflexivity|];
             apply Z.eqb_neq in Hs; eauto 10 ]).
Qed.
Lemma eq_str_false (v : json) (s : string) :
  eq_str v s = false -> v <> JStr s.
Proof.
  intros H ->. simpl in H. now rewrite String.eqb_refl in H.
Qed.

Lemma handle_call_tool_unknown
    (request_id : json) (params : list (string * json)) (b : backend) :
  eq_str (tool_name_of params) "weather_info" = false ->
  stdout (trace_of (handle_call_tool request_id (JDict params)) b) =
    [error_response request_id (-32601)
       (JStr ("Unknown tool: " ++ py_str (tool_name_of params)))].
Proof.
  split_call params b; intros; try discriminate; reflexivity.
Qed.

(** X13: [tools/list] and [tools/call] agree. A call of a name that
    the response of [tools/list] describes goes to the backend, and a
    call of any other name, an absent one included, is answered with
    "Unknown tool". *)
Theorem X13_listed_tools_are_the_callable_ones
    (list_id call_id : json) (params : list (string * json))
    (b b' : backend) :
  (In (tool_name_of params)
      (flat_map listed_tool_names
         (stdout (trace_of (handle_list_tools list_id) b))) ->
   http_requests (trace_of (handle_call_tool call_id (JDict params)) b') =
     [HttpPost tool_url (arguments_of params)]) /\
  (~ In (tool_name_of params)
        (flat_map listed_tool_names
           (stdout (trace_of (handle_list_tools list_id) b))) ->
   http_requests (trace_of (handle_call_tool call_id (JDict params)) b') = [] /\
   stdout (trace_of (handle_call_tool call_id (JDict params)) b') =
     [error_response call_id (-32601)
        (JStr ("Unknown tool: " ++ py_str (tool_name_of params)))]).
Proof.
  change (flat_map listed_tool_names
            (stdout (trace_of (handle_list_tools list_id) b)))
    with [JStr "weather_info"].
  destruct (handle_call_tool_http call_id params b') as [Hh _].
  destruct (eq_str (tool_name_of params) "weather_info") eqn:Hname.
  - split; [intros _; exact Hh|].
    intros Hnot. exfalso. apply Hnot. left. symmetry.
    now apply eq_str_true.
  - split.
    + intros [Hin|[]]. symmetry in Hin. now apply eq_str_false in Hname.
    + intros _. split; [exact Hh|]. now apply handle_call_tool_unknown.
Qed.
End Outcomes.


(** ** The run as a whole *)

Section Run.
Context `{RT : Runtime}.

(** A turn either leaves nothing but diagnostics, or does what
    [dispatch] does on the request object of the line. *)
Lemma loop_body_turn (line : string) (b : backend) :
  (protocol (trace_of (loop_body line) b) = [] /\
   backend_after (loop_body line) b = b /\
   answered line = false /\ calls_backend line = false)
  \/
  (exists d,
     String.eqb (strip line) "" = false /\
     request_of line = inr (JDict d) /\
     protocol (trace_of (loop_body line) b) =
       protocol (trace_of (dispatch (field (JDict d) "id")
                                    (field (JDict d) "method")
                                    (params_of (JDict d))) b) /\
     backend_after (loop_body line) b =
       backend_after (dispatch (field (JDict d) "id")
                               (field (JDict d) "method")
                               (params_of (JDict d))) b).
Proof.
  destruct (String.eqb (strip line) "") eqn:Hline.
  { left. apply String.eqb_eq in Hline as Hblank.
    unfold trace_of, backend_after, answered, calls_backend.
    rewrite (loop_body_blank line b Hblank), Hline. repeat split. }
  apply String.eqb_neq in Hline as Hne.
  destruct (request_of line) as [e|request] eqn:Hreq.
  { left.
    destruct (loop_body_skips line b (or_intror (ex_intro _ e Hreq))) as [Hp Hb].
    unfold answered, calls_backend. rewrite Hreq, Hline. repeat split; assumption. }
  destruct (is_dict request) eqn:Hd.
  - right. destruct request as [| | | | | |d]; try discriminate. exists d.
    destruct (dispatch (field (JDict d) "id") (field (JDict d) "method")
                (params_of (JDict d)) b) as [[r t] b1] eqn:Hdis.
    destruct (loop_body_dispatched line d b b1 r t Hline Hreq Hdis)
      as (_ & Hp & Hb).
    unfold trace_of, backend_after in *. rewrite Hdis. simpl. repeat split; assumption.
  - left. unfold trace_of, backend_after, answered, calls_backend.
    rewrite (loop_body_not_object line request b Hne Hreq Hd), Hreq, Hline.
    destruct request; try discriminate; repeat split.
Qed.

Lemma dispatch_envelope (request_id method params : json) (b : backend) :
  forallb is_envelope
    (stdout (trace_of (dispatch request_id method params) b)) = true.
Proof.
  unfold dispatch.
  destruct (eq_str method "initialize"); [reflexivity|].
  destruct (eq_str method "tools/list"); [reflexivity|].
  destruct (eq_str method "tools/call"); [apply handle_call_tool_envelope|].
  destruct (eq_str method "ping"); [reflexivity|].
  destruct (eq_str method "notifications/initialized"); reflexivity.
Qed.

Lemma loop_body_envelope (line : string) (b : backend) :
  forallb is_envelope (stdout (trace_of (loop_body line) b)) = true.
Proof.
  rewrite <- stdout_protocol.
  destruct (loop_body_turn line b) as [(Hp & _)|(d & _ & _ & Hp & _)];
    rewrite Hp; [reflexivity|].
  rewrite stdout_protocol. apply dispatch_envelope.
Qed.

(** X10: every line the bridge writes to standard output, on every
    input (whether or not a read raises) and with every backend, is a
    JSON-RPC 2.0 response: an object with ["jsonrpc": "2.0"], an [id],
    and then either a [result] that is an object or an [error] with a
    [code] and a [message]. *)
Theorem X10_every_output_is_a_response (stdin : list read) (b : backend) :
  forallb is_envelope (stdout (trace_of (main stdin) b)) = true.
Proof.
  rewrite main_stdout. generalize (backend_after probe b). clear b.
  induction stdin as [|[line|e] rest IH]; intros b; try reflexivity.
  destruct (for_lines_cons line rest b) as [Ht _].
  rewrite Ht, stdout_app, forallb_app, loop_body_envelope, IH. reflexivity.
Qed.

(** *** Which lines are answered *)

Lemma dispatch_unanswered (request_id method params : json) (b : backend) :
  eq_str method "notifications/initialized" = true \/
  (eq_str method "tools/call" = true /\ is_dict params = false) ->
  stdout (trace_of (dispatch request_id method params) b) = [].
Proof.
  intros [Hm|[Hm Hp]]; apply eq_str_true in Hm; subst method;
    [reflexivity|].
  destruct params; try discriminate; reflexivity.
Qed.

Lemma loop_body_unanswered (line : string) (b : backend) :
  answered line = false -> stdout (trace_of (loop_body line) b) = [].
Proof.
  intros Hans. rewrite <- stdout_protocol.
  destruct (loop_body_turn line b) as [(Hp & _)|(d & Hline & Hreq & Hp & _)];
    rewrite Hp; [reflexivity|].
  rewrite stdout_protocol. apply dispatch_unanswered.
  unfold answered in Hans. rewrite Hline, Hreq in Hans.
  remember (field (JDict d) "method") as method eqn:Em. clear Em.
  remember (params_of (JDict d)) as params eqn:Ep. clear Ep.
  destruct (eq_str method "notifications/initialized"); [now left|].
  destruct (eq_str method "tools/call"); cbn [negb andb] in Hans;
    [right; split; [reflexivity|exact Hans] | discriminate].
Qed.

(** X11: the responses of a run, on any input. Among the lines read
    before the first read that raises (all the lines, when no read
    raises), blank lines and lines that are not JSON included, the
    responses are those of the answered lines, one each and in their
    order: the [id]s written are the [id]s of the lines that hold a
    request object, other than [notifications/initialized] and other
    than a [tools/call] whose [params] is not an object. No line gets
    two responses, no other line gets one, and nothing is answered
    from the failing read on. *)
Theorem X11_responses_of_a_run (stdin : list read) (b : backend) :
  map response_id (stdout (trace_of (main stdin) b)) =
    map (fun line => Some (id_of line)) (filter answered (read_lines stdin)).
Proof.
  rewrite main_stdout. generalize (backend_after probe b). clear b.
  induction stdin as [|[line|e] rest IH]; intros b; try reflexivity.
  destruct (for_lines_cons line rest b) as [Ht _].
  rewrite Ht, stdout_app, map_app, IH. simpl.
  destruct (answered line) eqn:Hans.
  - now rewrite (loop_body_answers line b Hans).
  - now rewrite (loop_body_unanswered line b Hans).
Qed.

(** *** Which lines reach the backend *)

Lemma dispatch_http (request_id method params : json) (b : backend) :
  eq_str method "tools/call" = false \/ is_dict params = false ->
  http_requests (trace_of (dispatch request_id method params) b) = [] /\
  backend_after (dispatch request_id method params) b = b.
Proof.
  intros H. unfold dispatch.
  destruct (eq_str method "initialize"); [split; reflexivity|].
  destruct (eq_str method "tools/list"); [split; reflexivity|].
  destruct (eq_str method "tools/call").
  - destruct H as [H|H]; [discriminate|].
    destruct params; try discriminate; split; reflexivity.
  - destruct (eq_str method "ping"); [split; reflexivity|].
    destruct (eq_str method "notifications/initialized"); split; reflexivity.
Qed.

Lemma loop_body_http (line : string) (b : backend) :
  http_requests (trace_of (loop_body line) b) =
    (if calls_backend line
     then [HttpPost tool_url (call_arguments line)]
     else []) /\
  backend_after (loop_body line) b =
    (if calls_backend line
     then snd (requests_post tool_url (call_arguments line) b)
     else b).
Proof.
  rewrite <- http_requests_protocol.
  destruct (loop_body_turn line b)
    as [(Hp & Hb & _ & Hc)|(d & Hline & Hreq & Hp & Hb)];
    rewrite Hp, Hb; [rewrite Hc; split; reflexivity|].
  rewrite http_requests_protocol.
  unfold calls_backend, call_arguments. rewrite Hline, Hreq. simpl negb.
  cbv iota. rewrite andb_true_l.
  destruct (eq_str (field (JDict d) "method") "tools/call") eqn:Hm.
  - destruct (params_of (JDict d)) as [| | | | | |p] eqn:Hp';
      try (apply dispatch_http; right; reflexivity).
    apply eq_str_true in Hm. rewrite Hm.
    change (dispatch (field (JDict d) "id") (JStr "tools/call") (JDict p))
      with (handle_call_tool (field (JDict d) "id") (JDict p)).
    rewrite andb_true_l. apply handle_call_tool_http.
  - apply dispatch_http. now left.
Qed.

(** X12: the calls of [requests] in a run, on any input. There is the
    GET of the probe, then, among the lines read before the first read
    that raises, one call of [requests.post] on the tool endpoint for
    each line that holds a [tools/call] of [weather_info] with an
    object for [params], in the order of the lines; its [json=]
    argument is the [arguments] of the call as the script read it,
    unchanged and unchecked ([{}] when the call has none; what
    [requests] puts on the wire for it is not the script's affair).
    Nothing is retried and no other line reaches the backend. *)
Theorem X12_http_requests_of_a_run (stdin : list read) (b : backend) :
  http_requests (trace_of (main stdin) b) =
    HttpGet probe_url ::
    map (fun line => HttpPost tool_url (call_arguments line))
        (filter calls_backend (read_lines stdin)).
Proof.
  destruct (main_trace stdin b) as (Ht & _). rewrite Ht. simpl.
  rewrite http_requests_app.
  assert (Hprobe : http_requests (trace_of probe b) = [HttpGet probe_url]).
  { unfold probe, probe_url. run. simpl.
    destruct (requests_get _ b) as [[e|r] b1]; simpl; [reflexivity|].
    destruct (status_code r =? 200); reflexivity. }
  rewrite Hprobe. simpl. f_equal.
  generalize (backend_after probe b). clear.
  induction stdin as [|[line|e] rest IH]; intros b; try reflexivity.
  destruct (for_lines_cons line rest b) as [Ht _].
  destruct (loop_body_http line b) as [Hh _].
  rewrite Ht, http_requests_app, Hh, IH. simpl.
  destruct (calls_backend line); reflexivity.
Qed.
End Run.

(** ** Which key a failed body lacks *)

Section MissingKey.
Context `{RT : Runtime}.

Lemma city_lines_first_missing
    (acc : list string) (city : string) (f : list (string * json)) :
  match first_missing f with
  | Some k => city_lines acc city (JDict f) = inl (Exn KeyError (repr_str k))
  | None => exists acc', city_lines acc city (JDict f) = inr acc'
  end.
Proof.
  unfold first_missing, city_lines, subscript, and_then.
  destruct (lookup "temperature" f); [|reflexivity].
  destruct (lookup "condition" f); [|reflexivity].
  destruct (lookup "humidity" f); [|reflexivity].
  destruct (lookup "wind_speed" f); [eauto|reflexivity].
Qed.

Lemma for_cities_missing
    (its : list (string * json)) (k : string) (acc : list string) :
  missing_in_results its = Some k ->
  for_cities its acc = inl (Exn KeyError (repr_str k)).
Proof.
  revert acc. induction its as [|[city info] its IH]; intros acc; simpl.
  - discriminate.
  - destruct info as [| | | | | |f]; try discriminate.
    pose proof (city_lines_first_missing acc city f) as Hc.
    destruct (first_missing f) as [k'|].
    + intros Hk. injection Hk as <-. now rewrite Hc.
    + destruct Hc as [acc' Hc]. rewrite Hc. simpl. apply IH.
Qed.

Lemma format_results_missing_key (data : json) (k : string) :
  missing_key data = Some k ->
  format_results data = inl (Exn KeyError (repr_str k)).
Proof.
  destruct data as [| | | | | |d]; try discriminate.
  unfold missing_key, format_results, subscript, and_then.
  destruct (lookup "timestamp" d).
  - destruct (lookup "results" d) as [[| | | | | |its]|]; try discriminate.
    + simpl. apply for_cities_missing.
    + intros Hk. now injection Hk as <-.
  - intros Hk. now injection Hk as <-.
Qed.

(** X14: on status 200, when the body fails because a key is missing,
    the error names that key: the message of the -32603 response is
    "Internal error: " followed by the [repr] of the first key the
    script does not find, reading [timestamp], then [results], then for
    each city in order [temperature], [condition], [humidity],
    [wind_speed]. *)
Theorem X14_error_names_the_missing_key
    (request_id : json) (params : list (string * json))
    (b b' : backend) (r : response) (data : json) (k : string) :
  eq_str (tool_name_of params) "weather_info" = true ->
  requests_post tool_url (arguments_of params) b = (inr r, b') ->
  status_code r = 200 ->
  response_json r = inr data ->
  missing_key data = Some k ->
  stdout (trace_of (handle_call_tool request_id (JDict params)) b) =
    [error_response request_id (-32603)
       (JStr ("Internal error: " ++ repr_str k))].
Proof.
  intros Hname Hpost Hs Hjson Hk. apply Z.eqb_eq in Hs.
  pose proof (format_results_missing_key data k Hk) as Hfmt.
  unfold handle_call_tool, get, tool_name_of, arguments_of, or_null, tool_url in *.
  destruct (lookup "name" params) as [tool_name|];
    destruct (lookup "arguments" params) as [arguments|];
    run; simpl in *; try discriminate; rewrite Hname; simpl;
    rewrite Hpost; simpl; rewrite Hs; simpl; rewrite Hjson; simpl;
    rewrite Hfmt; reflexivity.
Qed.
End MissingKey.

(** ** A backend without state *)

Section Stateless.
Context `{RT : Runtime}.

(** X15: lines are handled independently. From a backend state that
    the tool request leaves as it is, each line of an input is handled
    as if it were alone: the trace of the lines is the sequence of the
    traces each line has on its own, and the state is left as it was. *)
Theorem X15_lines_are_independent (stdin : list string) (b : backend) :
  (forall arguments, snd (requests_post tool_url arguments b) = b) ->
  trace_of (for_lines (decoded stdin)) b =
    flat_map (fun line => trace_of (loop_body line) b) stdin /\
  backend_after (for_lines (decoded stdin)) b = b.
Proof.
  intros Hstill.
  assert (Hturn : forall line, backend_after (loop_body line) b = b).
  { intros line. destruct (loop_body_http line b) as [_ Hb]. rewrite Hb.
    destruct (calls_backend line); [apply Hstill|reflexivity]. }
  induction stdin as [|line rest [IHt IHb]]; [split; reflexivity|].
  rewrite decoded_cons.
  destruct (for_lines_cons line (decoded rest) b) as [Ht Hb].
  rewrite Ht, Hb, Hturn. simpl. now rewrite IHt, IHb.
Qed.
End Stateless.

(** ** Methods that need no backend *)

Section Local.
Context `{RT : Runtime}.

(** X16: [initialize], [tools/list] and [ping] never fail and never
    look at the backend or at [params]: each is answered with one
    [result] carrying the [id], the same whatever [params] holds and
    whatever state the backend is in, and no HTTP request is made. *)
Theorem X16_local_methods_always_succeed (request_id method : json) :
  eq_str method "initialize" || eq_str method "tools/list" ||
  eq_str method "ping" = true ->
  exists res,
    forall (params : json) (b : backend),
      dispatch request_id method params b =
        (inr tt,
         [Stdout (JDict [("jsonrpc", JStr "2.0"); ("id", request_id);
                         ("result", JDict res)])],
         b).
Proof.
  intros H. unfold dispatch.
  destruct (eq_str method "initialize"); [eexists; reflexivity|].
  destruct (eq_str method "tools/list"); [eexists; reflexivity|].
  destruct (eq_str method "tools/call") eqn:Hcall.
  - apply eq_str_true in Hcall. subst method. discriminate.
  - destruct (eq_str method "ping"); [eexists; reflexivity|discriminate].
Qed.
End Local.

(** ** The further properties at work *)

Lemma X2_witness :
  probe [Sample.alive] =
    (inr tt,
     [HttpGet probe_url;
      Stderr "ERROR: Successfully connected to Rust Weather API HTTP server"],
     []).
Proof.
  exact (proj1 (proj2 (X2_probe_is_advisory [Sample.alive]))
           (Response 200 (inr (JDict []))) [] eq_refl eq_refl).
Defined.

Lemma X4_witness :
  handle_call_tool (JInt 6) (JDict Sample.weather_params)
    [inl Sample2.timed_out] =
    (inr tt,
     [HttpPost tool_url Sample.paris_args;
      Stderr ("ERROR: Error calling HTTP endpoint: " ++ exn_str Sample2.timed_out);
      Stdout (error_response (JInt 6) (-32603)
                (JStr ("Internal error: " ++ exn_str Sample2.timed_out)))],
     []).
Proof.
  refine (proj1 (X4_other_exceptions (JInt 6) Sample.weather_params
                   [inl Sample2.timed_out] [] eq_refl)
            Sample2.timed_out eq_refl _).
  discriminate.
Defined.

Lemma X5_witness :
  exists e,
    format_results Sample2.results_list_body = inl e /\
    handle_call_tool (JInt 6) (JDict Sample.weather_params)
      [inr (Response 200 (inr Sample2.results_list_body))] =
      (inr tt,
       [HttpPost tool_url Sample.paris_args;
        Stderr ("ERROR: Error calling HTTP endpoint: " ++ exn_str e);
        Stdout (error_response (JInt 6) (-32603)
                  (JStr ("Internal error: " ++ exn_str e)))],
       []).
Proof.
  exact (X5_malformed_success_body (JInt 6) Sample.weather_params
           [inr (Response 200 (inr Sample2.results_list_body))] []
           (Response 200 (inr Sample2.results_list_body))
           Sample2.results_list_body
           eq_refl eq_refl eq_refl eq_refl eq_refl).
Defined.

Lemma X6_witness :
  loop_body (RT := Sample2.runtime) (Sample2.req_list ++ nl) [] =
    (inr tt,
     [Stderr "ERROR: Error processing request: 'list' object has no attribute 'get'"],
     []).
Proof.
  refine (X6_request_not_an_object (RT := Sample2.runtime)
            (Sample2.req_list ++ nl) (JList [JInt 1; JInt 2]) []
            _ eq_refl eq_refl).
  vm_compute. discriminate.
Defined.

Lemma X7_witness :
  loop_body (Sample.req_params_list ++ nl) [Sample.paris_ok] =
    (inr tt,
     [Stderr "ERROR: Received request: tools/call";
      Stderr "ERROR: Error processing request: 'list' object has no attribute 'get'"],
     [Sample.paris_ok]).
Proof.
  refine (X7_call_params_not_an_object (Sample.req_params_list ++ nl)
            [("jsonrpc", JStr "2.0"); ("id", JInt 7);
             ("method", JStr "tools/call"); ("params", JList [])]
            [Sample.paris_ok] _ eq_refl eq_refl eq_refl).
  vm_compute. discriminate.
Defined.

Lemma X8_witness :
  exists r b' data timestamp cities,
    eq_str (tool_name_of Sample.weather_params) "weather_info" = true /\
    requests_post tool_url (arguments_of Sample.weather_params)
      [Sample.paris_ok] = (inr r, b') /\
    status_code r = 200 /\
    response_json r = inr data /\
    decode_body data = Some (timestamp, cities) /\
    text_result (JInt 6)
      (weather_text (JStr "2024-01-01T00:00:00Z")
         [("Paris", Sample.paris_record)]) =
    text_result (JInt 6) (weather_text timestamp cities).
Proof.
  refine (X8_success_only_from_the_backend (JInt 6) Sample.weather_params
            [Sample.paris_ok]
            (text_result (JInt 6)
               (weather_text (JStr "2024-01-01T00:00:00Z")
                  [("Paris", Sample.paris_record)]))
            (or_introl eq_refl) _).
  discriminate.
Defined.

Lemma X9_witness :
  (eq_str (tool_name_of Sample.weather_params) "weather_info" = false /\
   404 = -32601) \/
  (eq_str (tool_name_of Sample.weather_params) "weather_info" = true /\
   404 = -32603) \/
  (eq_str (tool_name_of Sample.weather_params) "weather_info" = true /\
   exists r b' body,
     requests_post tool_url (arguments_of Sample.weather_params)
       [inr (Response 404 (inr Sample.not_found_body))] = (inr r, b') /\
     status_code r <> 200 /\
     response_json r = inr (JDict body) /\
     404 = status_code r).
Proof.
  exact (X9_error_codes_of_a_call (JInt 6) Sample.weather_params
           [inr (Response 404 (inr Sample.not_found_body))]
           (error_response (JInt 6) 404 (JStr "city not found")) 404
           (or_introl eq_refl) eq_refl).
Defined.

Lemma X13_witness :
  http_requests
    (trace_of (handle_call_tool (JInt 6) (JDict Sample.weather_params))
       [Sample.paris_ok]) =
    [HttpPost tool_url Sample.paris_args].
Proof.
  exact (proj1 (X13_listed_tools_are_the_callable_ones (JInt 1) (JInt 6)
                  Sample.weather_params [] [Sample.paris_ok])
           (or_introl eq_refl)).
Defined.

Lemma X14_witness :
  stdout
    (trace_of (handle_call_tool (JInt 6) (JDict Sample.weather_params))
       [inr (Response 200 (inr Sample.no_humidity_body))]) =
    [error_response (JInt 6) (-32603) (JStr "Internal error: 'humidity'")].
Proof.
  exact (X14_error_names_the_missing_key (JInt 6) Sample.weather_params
           [inr (Response 200 (inr Sample.no_humidity_body))] []
           (Response 200 (inr Sample.no_humidity_body))
           Sample.no_humidity_body "humidity"
           eq_refl eq_refl eq_refl eq_refl eq_refl).
Defined.

Lemma X15_witness :
  trace_of (for_lines (decoded [Sample.req_weather ++ nl; Sample.req_ping ++ nl]))
    [] =
    flat_map (fun line => trace_of (loop_body line) [])
      [Sample.req_weather ++ nl; Sample.req_ping ++ nl] /\
  backend_after
    (for_lines (decoded [Sample.req_weather ++ nl; Sample.req_ping ++ nl])) []
    = [].
Proof.
  exact (X15_lines_are_independent
           [Sample.req_weather ++ nl; Sample.req_ping ++ nl] []
           (fun _ => eq_refl)).
Defined.

Lemma X16_witness :
  exists res,
    forall (params : json) (b : list (result response)),
      dispatch (JInt 2) (JStr "ping") params b =
        (inr tt,
         [Stdout (JDict [("jsonrpc", JStr "2.0"); ("id", JInt 2);
                         ("result", JDict res)])],
         b).
Proof.
  exact (X16_local_methods_always_succeed (JInt 2) (JStr "ping") eq_refl).
Defined.
